(** * A shallow embedding of the mDNS responder of [server.go]

    The development follows the layout of the Go package.  The external
    collaborators of the responder (the DNS message library, the [net]
    sockets, the [time] timers, the [log] package and the caller-supplied
    Zone) are modelled by what the responder can observe of them: every call
    that crosses the boundary is recorded, with the instant at which it
    happens, in the [trace] of a [World], and the theorems at the end of the
    file are statements about these traces. *)

From Stdlib Require Import ZArith List String Bool Lia.
From Stdlib Require Import Permutation.
Import ListNotations.
Local Open Scope string_scope.
Local Open Scope list_scope.
Local Open Scope Z_scope.

(** ** Go's [error] values

    [error] is the type of non-nil errors; a Go result of type [error] is an
    [option error], [None] being [nil].  The constructors follow the places
    of [server.go] that create an error, the arguments are what the format
    string prints (the dump of the whole query is left out). *)
Inductive error : Type :=
| ErrExternal (what : string)
| ErrNoListeners
| ErrOpcode (opcode : Z)
| ErrRcode (rcode : Z)
| ErrTruncatedUnsupported
| ErrMulticastSend (cause : error)
| ErrUnicastSend (cause : error)
| ErrMissingConn.

Inductive Result (A : Type) : Type :=
| Ok (a : A)
| Fail (e : error).
Arguments Ok {A} a.
Arguments Fail {A} e.

(** ** package [dns] (github.com/miekg/dns): the types the responder uses *)
Module dns.

(** [dns.RR] is an interface; the responder only collects and forwards
    its values.  A record is represented by its header fields and its
    data in presentation format. *)
Record RR : Type := mkRR {
  RR_Name : string;
  Rrtype : Z;
  Class : Z;
  Ttl : Z;
  Rdata : string
}.

Record Question : Type := mkQuestion {
  Name : string;
  Qtype : Z;
  Qclass : Z
}.

Record MsgHdr : Type := mkMsgHdr {
  Id : Z;
  Response : bool;
  Opcode : Z;
  Authoritative : bool;
  Truncated : bool;
  RecursionDesired : bool;
  RecursionAvailable : bool;
  Zero : bool;
  AuthenticatedData : bool;
  CheckingDisabled : bool;
  Rcode : Z
}.

(** [dns.Msg] embeds [MsgHdr]; the embedded struct is the field [Hdr] and
    the slice of questions, [Question] in Go, is [Questions]. *)
Record Msg : Type := mkMsg {
  Hdr : MsgHdr;
  Compress : bool;
  Questions : list Question;
  Answer : list RR;
  Ns : list RR;
  Extra : list RR
}.

Definition OpcodeQuery : Z := 0.

End dns.

(** ** package [net]: addresses and UDP connections *)
Module net.

(** [net.IP] is a byte slice. *)
Definition IP : Type := list Z.

Definition isZeros (p : list Z) : bool := forallb (Z.eqb 0) p.

(** [IP.To4]: the 4-byte form of an IPv4 address, given in 4 bytes or as
    an IPv4-mapped 16-byte address; [None] is Go's nil. *)
Definition To4 (ip : IP) : option IP :=
  if Nat.eqb (List.length ip) 4 then Some ip
  else if Nat.eqb (List.length ip) 16
          && isZeros (firstn 10 ip)
          && Z.eqb (nth 10 ip 0) 255
          && Z.eqb (nth 11 ip 0) 255
       then Some (skipn 12 ip)
       else None.

Record UDPAddr : Type := mkUDPAddr {
  addrIP : IP;
  Port : Z
}.

(** A connection is known by its file descriptor. *)
Record UDPConn : Type := mkUDPConn { fd : Z }.

Definition conn_eqb (a b : UDPConn) : bool := Z.eqb (fd a) (fd b).

(** [net.IPv4(a, b, c, d)], which is what [net.ParseIP] returns for a
    dotted-quad string: the 16-byte IPv4-mapped form. *)
Definition IPv4 (a b c d : Z) : IP :=
  [0; 0; 0; 0; 0; 0; 0; 0; 0; 0; 255; 255; a; b; c; d].

End net.

(** ** package [time] *)
Module time.
(** A [Duration] counts nanoseconds. *)
Definition Duration : Type := Z.
Definition Second : Duration := 1000000000.
End time.

(** ** The world outside the responder *)

Inductive Event : Type :=
| ZoneRecords (q : dns.Question)
| ZoneAnnouncement
| SendResponse (resp : dns.Msg) (from : net.UDPAddr) (unicast : bool)
| WriteToUDP (c : net.UDPConn) (buf : list Z) (addr : net.UDPAddr) (sent : bool)
| ConnClose (c : net.UDPConn)
| ChanClose
| TimerStop
| LogPrintf (line : string).

(** [now] is the clock in nanoseconds; [closed] lists the connections on
    which [Close] was called; [refused c addr] tells whether the kernel
    rejects a datagram written on [c] for [addr] (no route, interface
    down); [trace] holds the calls made so far, the oldest first, each with
    the instant of the call. *)
Record World : Type := mkWorld {
  now : Z;
  closed : list net.UDPConn;
  refused : net.UDPConn -> net.UDPAddr -> bool;
  trace : list (Z * Event)
}.

Definition events (w : World) : list Event := map snd (trace w).

(** State passing over the world. *)
Definition M (A : Type) : Type := World -> A * World.

Definition ret {A : Type} (a : A) : M A := fun w => (a, w).

Definition bind {A B : Type} (m : M A) (k : A -> M B) : M B :=
  fun w => let (a, w') := m w in k a w'.

Notation "x <- m ;; k" := (bind m (fun x => k))
  (at level 61, m at next level, right associativity).
Notation "m ;;; k" := (bind m (fun _ => k))
  (at level 61, right associativity).

Definition emit (e : Event) : M unit :=
  fun w => (tt, mkWorld (now w) (closed w) (refused w) (trace w ++ [(now w, e)])).

Definition isClosed (c : net.UDPConn) (w : World) : bool :=
  existsb (net.conn_eqb c) (closed w).

(** [WriteToUDP] of a [net.UDPConn]: fails on a closed connection and when the
    kernel refuses the datagram. *)
Definition conn_WriteToUDP (c : net.UDPConn) (buf : list Z) (addr : net.UDPAddr)
  : M (option error) :=
  fun w =>
    if isClosed c w then
      (emit (WriteToUDP c buf addr false) ;;;
       ret (Some (ErrExternal "use of closed network connection"))) w
    else if refused w c addr then
      (emit (WriteToUDP c buf addr false) ;;;
       ret (Some (ErrExternal "sendto failed"))) w
    else
      (emit (WriteToUDP c buf addr true) ;;; ret None) w.

(** [Close] of a [net.UDPConn].  Closing a connection that is closed
    already returns an error in Go; [Shutdown] drops the result. *)
Definition conn_Close (c : net.UDPConn) : M unit :=
  fun w =>
    (tt, mkWorld (now w) (c :: closed w) (refused w) (trace w ++ [(now w, ConnClose c)])).

(** ** package [mdns]: [server.go] *)

(** The [Zone] interface, provided by the caller. *)
Record Zone : Type := mkZone {
  Records : dns.Question -> list dns.RR;
  Announcement : list dns.RR
}.

Definition zone_Records (z : Zone) (q : dns.Question) : M (list dns.RR) :=
  emit (ZoneRecords q) ;;; ret (Records z q).

Definition zone_Announcement (z : Zone) : M (list dns.RR) :=
  emit ZoneAnnouncement ;;; ret (Announcement z).

Definition ipv4mdns : string := "224.0.0.251".
Definition ipv6mdns : string := "ff02::fb".
Definition mdnsPort : Z := 5353.
Definition forceUnicastResponses : bool := false.

(** [net.ParseIP ipv4mdns] and [net.ParseIP ipv6mdns], written out. *)
Definition ipv4Addr : net.UDPAddr :=
  net.mkUDPAddr (net.IPv4 224 0 0 251) mdnsPort.
Definition ipv6Addr : net.UDPAddr :=
  net.mkUDPAddr [255; 2; 0; 0; 0; 0; 0; 0; 0; 0; 0; 0; 0; 0; 0; 251] mdnsPort.

Record Config : Type := mkConfig {
  Config_Zone : Zone;
  Iface : option string;
  DisableMulticastLoopback : bool
}.

(** A Go channel of [struct{}] on which nothing is ever sent: all that
    matters is whether it was made and whether it was closed. *)
Inductive Chan : Type := ChanNil | ChanOpen | ChanClosed.

Record Server : Type := mkServer {
  config : Config;
  ipv4List : option net.UDPConn;
  ipv6List : option net.UDPConn;
  shutdown : bool;
  shutdownCh : Chan
}.

(** A call either returns or panics. *)
Inductive Outcome (A : Type) : Type :=
| Returned (a : A)
| Panicked (why : string).
Arguments Returned {A} a.
Arguments Panicked {A} why.

(** [Shutdown], as one caller at a time sees it: [shutdownLock] is held for
    the whole body.  [close] panics on a nil and on a closed channel. *)
Definition Shutdown (s : Server) : M (Outcome (option error) * Server) :=
  if shutdown s then ret (Returned None, s)
  else
    let s1 := mkServer (config s) (ipv4List s) (ipv6List s) true (shutdownCh s) in
    match shutdownCh s with
    | ChanNil => ret (Panicked "close of nil channel", s1)
    | ChanClosed => ret (Panicked "close of closed channel", s1)
    | ChanOpen =>
        let s2 := mkServer (config s) (ipv4List s) (ipv6List s) true ChanClosed in
        emit ChanClose ;;;
        match ipv4List s with
        | Some c => conn_Close c
        | None => ret tt
        end ;;;
        match ipv6List s with
        | Some c => conn_Close c
        | None => ret tt
        end ;;;
        ret (Returned None, s2)
    end.

(** [n] calls of [Shutdown] one after the other; the results of the calls
    are returned in order together with the final server. *)
Fixpoint Shutdown_times (n : nat) (s : Server)
  : M (list (Outcome (option error)) * Server) :=
  match n with
  | O => ret ([], s)
  | S n' =>
      r <- Shutdown s ;;
      rs <- Shutdown_times n' (snd r) ;;
      ret (fst r :: fst rs, snd rs)
  end.

(** [handleQuestion]: the records for the multicast and for the unicast
    response, in this order. *)
Definition handleQuestion (s : Server) (q : dns.Question)
  : M (list dns.RR * list dns.RR) :=
  records <- zone_Records (Config_Zone (config s)) q ;;
  if Nat.eqb (List.length records) 0 then ret ([], [])
  else if negb (Z.eqb (Z.land (dns.Qclass q) (Z.shiftl 1 15)) 0)
          || forceUnicastResponses
  then ret ([], records)
  else ret (records, []).

(** The loop of [handleQuery] over [query.Question]; the result is
    [(unicastAnswer, multicastAnswer)]. *)
Fixpoint rangeQuestions (s : Server) (qs : list dns.Question)
    (unicastAnswer multicastAnswer : list dns.RR)
  : M (list dns.RR * list dns.RR) :=
  match qs with
  | [] => ret (unicastAnswer, multicastAnswer)
  | q :: qs' =>
      recs <- handleQuestion s q ;;
      rangeQuestions s qs' (unicastAnswer ++ snd recs) (multicastAnswer ++ fst recs)
  end.

(** The closure [resp] of [handleQuery]; [None] is the nil message. *)
Definition resp (query : dns.Msg) (unicastAnswer multicastAnswer : list dns.RR)
    (unicast : bool) : option dns.Msg :=
  let id := if unicast then dns.Id (dns.Hdr query) else 0 in
  let answer := if unicast then unicastAnswer else multicastAnswer in
  if Nat.eqb (List.length answer) 0 then None
  else Some (dns.mkMsg
               (dns.mkMsgHdr id true dns.OpcodeQuery true
                  false false false false false false 0)
               true [] answer [] []).

(** The message built by [announceOnce]. *)
Definition announceMsg (records : list dns.RR) : dns.Msg :=
  dns.mkMsg
    (dns.mkMsgHdr 0 true dns.OpcodeQuery true
       false false false false false false 0)
    true [] records [] [].

Section Codec.

(** The codec of the DNS library: [Pack] and [Unpack] of a [dns.Msg]. *)
Variable Pack : dns.Msg -> Result (list Z).
Variable Unpack : list Z -> Result dns.Msg.

(** [sendResponse]; [from] is the [*net.UDPAddr] the packet came from. *)
Definition sendResponse (s : Server) (resp : dns.Msg) (from : net.UDPAddr)
    (unicast : bool) : M (option error) :=
  emit (SendResponse resp from unicast) ;;;
  match Pack resp with
  | Fail err => ret (Some err)
  | Ok buf =>
      let conn :=
        match net.To4 (net.addrIP from) with
        | Some _ => ipv4List s
        | None => ipv6List s
        end in
      let addr :=
        if negb unicast then
          match net.To4 (net.addrIP from) with
          | Some _ => ipv4Addr
          | None => ipv6Addr
          end
        else from in
      match conn with
      | None => ret (Some ErrMissingConn)
      | Some c => conn_WriteToUDP c buf addr
      end
  end.

Definition handleQuery (s : Server) (query : dns.Msg) (from : net.UDPAddr)
  : M (option error) :=
  if negb (Z.eqb (dns.Opcode (dns.Hdr query)) dns.OpcodeQuery) then
    ret (Some (ErrOpcode (dns.Opcode (dns.Hdr query))))
  else if negb (Z.eqb (dns.Rcode (dns.Hdr query)) 0) then
    ret (Some (ErrRcode (dns.Rcode (dns.Hdr query))))
  else if dns.Truncated (dns.Hdr query) then
    ret (Some ErrTruncatedUnsupported)
  else
    answers <- rangeQuestions s (dns.Questions query) [] [] ;;
    let unicastAnswer := fst answers in
    let multicastAnswer := snd answers in
    let sendUnicast : M (option error) :=
      match resp query unicastAnswer multicastAnswer true with
      | Some uresp =>
          err <- sendResponse s uresp from true ;;
          match err with
          | Some e => ret (Some (ErrUnicastSend e))
          | None => ret None
          end
      | None => ret None
      end in
    match resp query unicastAnswer multicastAnswer false with
    | Some mresp =>
        err <- sendResponse s mresp from false ;;
        match err with
        | Some e => ret (Some (ErrMulticastSend e))
        | None => sendUnicast
        end
    | None => sendUnicast
    end.

(** [parsePacket] *)
Definition parsePacket (s : Server) (packet : list Z) (from : net.UDPAddr)
  : M (option error) :=
  match Unpack packet with
  | Fail err =>
      emit (LogPrintf "[ERR] mdns: Failed to unpack packet") ;;;
      ret (Some err)
  | Ok msg => handleQuery s msg from
  end.

(** [announceOnce] *)
Definition announceOnce (s : Server) : M (option error) :=
  records <- zone_Announcement (Config_Zone (config s)) ;;
  if Nat.eqb (List.length records) 0 then ret None
  else
    match Pack (announceMsg records) with
    | Fail err => ret (Some err)
    | Ok buf =>
        err4 <- match ipv4List s with
                | Some c => conn_WriteToUDP c buf ipv4Addr
                | None => ret None
                end ;;
        match err4 with
        | Some e => ret (Some e)
        | None =>
            match ipv6List s with
            | Some c => conn_WriteToUDP c buf ipv6Addr
            | None => ret None
            end
        end
    end.

(** *** [Announce] and the timer it sets

    One call of [Announce] owns one [time.Timer], captured by the closure
    [tryAnnounce], and starts one goroutine.  [Announcing] is the state of
    that closure: the timer, and whether the goroutine has yet to run. *)
Inductive TimerState : Type := TimerPending | TimerFired | TimerStopped.

Record Timer : Type := mkTimer {
  when : Z;
  tstate : TimerState
}.

Record Announcing : Type := mkAnnouncing {
  timer : Timer;
  spawned : bool
}.

(** [Stop] of a [time.Timer]: only a pending timer is affected. *)
Definition timer_Stop (t : Timer) : M Timer :=
  emit TimerStop ;;;
  ret (match tstate t with
       | TimerPending => mkTimer (when t) TimerStopped
       | _ => t
       end).

(** The closure [tryAnnounce] of [Announce]. *)
Definition tryAnnounce (s : Server) (a : Announcing) : M Announcing :=
  err <- announceOnce s ;;
  match err with
  | Some _ =>
      t <- timer_Stop (timer a) ;;
      emit (LogPrintf "[ERR] mdns: Announce failed") ;;;
      ret (mkAnnouncing t (spawned a))
  | None => ret a
  end.

(** [Announce]: [time.AfterFunc(time.Second*2, tryAnnounce)] sets the
    timer, [go tryAnnounce()] leaves a goroutine to be run. *)
Definition Announce (s : Server) : M Announcing :=
  fun w => (mkAnnouncing (mkTimer (now w + time.Second * 2) TimerPending) true, w).

(** What the Go runtime may do next: let time pass, start the goroutine,
    or run the function of a timer that is pending and due.  A run of
    [tryAnnounce] is taken as one step. *)
Inductive Action : Type :=
| Elapse (d : time.Duration)
| RunGoroutine
| FireTimer.

Definition step (s : Server) (act : Action) (st : Announcing * World)
  : option (Announcing * World) :=
  let (a, w) := st in
  match act with
  | Elapse d =>
      if 0 <=? d
      then Some (a, mkWorld (now w + d) (closed w) (refused w) (trace w))
      else None
  | RunGoroutine =>
      if spawned a
      then Some (tryAnnounce s (mkAnnouncing (timer a) false) w)
      else None
  | FireTimer =>
      match tstate (timer a) with
      | TimerPending =>
          if when (timer a) <=? now w
          then Some (tryAnnounce s
                       (mkAnnouncing (mkTimer (when (timer a)) TimerFired) (spawned a)) w)
          else None
      | _ => None
      end
  end.

Fixpoint run (s : Server) (acts : list Action) (st : Announcing * World)
  : option (Announcing * World) :=
  match acts with
  | [] => Some st
  | act :: acts' =>
      match step s act st with
      | Some st' => run s acts' st'
      | None => None
      end
  end.


(** [NewServer].  The results of the calls into the platform are
    arguments: [listen4] and [listen6] are the connections returned by
    [net.ListenMulticastUDP] (nil on failure, the error is dropped),
    [loopback4] and [loopback6] the results of [SetMulticastLoopback].
    The receive loops started here are outside the model. *)
Definition NewServer (config : Config) (listen4 listen6 : option net.UDPConn)
    (loopback4 loopback6 : option error) : M (Result (Server * Announcing)) :=
  match loopback4 with
  | Some err => ret (Fail err)
  | None =>
      match loopback6 with
      | Some err => ret (Fail err)
      | None =>
          match listen4, listen6 with
          | None, None => ret (Fail ErrNoListeners)
          | _, _ =>
              let s := mkServer config listen4 listen6 false ChanOpen in
              a <- Announce s ;;
              ret (Ok (s, a))
          end
      end
  end.

(** *** The receive loop

    What one call of [ReadFrom] on a connection gives: an error, or a
    datagram and the address it came from. *)
Inductive ReadResult : Type :=
| ReadError (err : error)
| Datagram (payload : list Z) (from : net.UDPAddr).

(** The loop of [recv] over the results of its successive reads.  The
    buffer holds 65536 bytes, [buf[:n]] is what of the datagram fits into
    it.  [s.shutdown] is read before every read; the loop itself never
    sets it.  When the results run out the loop is waiting in [ReadFrom]. *)
Fixpoint recv_loop (s : Server) (reads : list ReadResult) : M unit :=
  if shutdown s then ret tt
  else
    match reads with
    | [] => ret tt
    | ReadError _ :: reads' => recv_loop s reads'
    | Datagram payload from :: reads' =>
        err <- parsePacket s (firstn (Z.to_nat 65536) payload) from ;;
        match err with
        | Some _ => emit (LogPrintf "[ERR] mdns: Failed to handle query")
        | None => ret tt
        end ;;;
        recv_loop s reads'
    end.

(** [recv]; [c] is nil for the address family that could not be bound. *)
Definition recv (s : Server) (c : option net.UDPConn) (reads : list ReadResult)
  : M unit :=
  match c with
  | None => ret tt
  | Some _ => recv_loop s reads
  end.

(** [Probe] is not implemented: it returns at once. *)
Definition Probe (s : Server) : M unit := ret tt.

End Codec.

(** ** Reading traces *)

(** [log evs w] is [w] after the calls [evs], made at the instant [now w]. *)
Definition log (evs : list Event) (w : World) : World :=
  mkWorld (now w) (closed w) (refused w) (trace w ++ map (pair (now w)) evs).

(** The calls of [sendResponse] in a list of events. *)
Definition sends (evs : list Event) : list (dns.Msg * net.UDPAddr * bool) :=
  flat_map (fun e => match e with
                     | SendResponse m from u => [(m, from, u)]
                     | _ => []
                     end) evs.

(** The datagrams handed to a socket, with the outcome of the write. *)
Definition writes (evs : list Event)
  : list (net.UDPConn * list Z * net.UDPAddr * bool) :=
  flat_map (fun e => match e with
                     | WriteToUDP c buf addr ok => [(c, buf, addr, ok)]
                     | _ => []
                     end) evs.

(** The questions put to the Zone. *)
Definition asked (evs : list Event) : list dns.Question :=
  flat_map (fun e => match e with
                     | ZoneRecords q => [q]
                     | _ => []
                     end) evs.

(** How often [Close] was called on the connection [c]. *)
Definition closes (c : net.UDPConn) (evs : list Event) : nat :=
  List.length (filter (fun e => match e with
                                | ConnClose c' => net.conn_eqb c c'
                                | _ => false
                                end) evs).

(** The unicast-response bit of a question, or the package-wide setting. *)
Definition wantsUnicast (q : dns.Question) : bool :=
  Z.testbit (dns.Qclass q) 15 || forceUnicastResponses.

(** What [handleQuestion] returns for the question [q]: the multicast and
    the unicast part. *)
Definition routed (z : Zone) (q : dns.Question) : list dns.RR * list dns.RR :=
  if wantsUnicast q then ([], Records z q) else (Records z q, []).

(** The answers [handleQuery] has accumulated after the questions [qs]. *)
Definition multicastAnswers (z : Zone) (qs : list dns.Question) : list dns.RR :=
  flat_map (fun q => fst (routed z q)) qs.
Definition unicastAnswers (z : Zone) (qs : list dns.Question) : list dns.RR :=
  flat_map (fun q => snd (routed z q)) qs.

(** The header every response of the responder carries, up to its id, and
    the response with that header, name compression and the given answer. *)
Definition responseHdr (id : Z) : dns.MsgHdr :=
  dns.mkMsgHdr id true 0 true false false false false false false 0.
Definition responseMsg (id : Z) (answer : list dns.RR) : dns.Msg :=
  dns.mkMsg (responseHdr id) true [] answer [] [].

(** The connections on which [Close] was called, in order. *)
Definition closed_conns (evs : list Event) : list net.UDPConn :=
  flat_map (fun e => match e with
                     | ConnClose c => [c]
                     | _ => []
                     end) evs.

(** The sockets a server has, the IPv4 one first. *)
Definition present (s : Server) : list net.UDPConn :=
  match ipv4List s with Some c => [c] | None => [] end
  ++ match ipv6List s with Some c => [c] | None => [] end.


(** A write on [conn] for [addr] would go through, if there is a [conn]. *)
Definition writable (w : World) (conn : option net.UDPConn) (addr : net.UDPAddr)
  : bool :=
  match conn with
  | Some c => negb (isClosed c w || refused w c addr)
  | None => true
  end.

Definition groupsWritable (s : Server) (w : World) : bool :=
  writable w (ipv4List s) ipv4Addr && writable w (ipv6List s) ipv6Addr.


(** The socket [sendResponse] takes for a packet that came from [from],
    and the address it writes to. *)
Definition connFor (s : Server) (from : net.UDPAddr) : option net.UDPConn :=
  match net.To4 (net.addrIP from) with
  | Some _ => ipv4List s
  | None => ipv6List s
  end.

Definition destFor (from : net.UDPAddr) (unicast : bool) : net.UDPAddr :=
  if negb unicast then
    match net.To4 (net.addrIP from) with
    | Some _ => ipv4Addr
    | None => ipv6Addr
    end
  else from.

(** The write a call of [sendResponse] makes in the world [w], if any:
    none when the message does not pack or the socket is missing. *)
Definition writeEvents (Pack : dns.Msg -> Result (list Z)) (s : Server)
    (w : World) (m : dns.Msg) (from : net.UDPAddr) (unicast : bool) : list Event :=
  match Pack m with
  | Fail _ => []
  | Ok buf =>
      match connFor s from with
      | None => []
      | Some c =>
          [WriteToUDP c buf (destFor from unicast)
             (writable w (Some c) (destFor from unicast))]
      end
  end.

(** How often the Zone was asked for its announcement. *)
Definition announcements (evs : list Event) : nat :=
  List.length (filter (fun e => match e with
                                | ZoneAnnouncement => true
                                | _ => false
                                end) evs).

(** The lines written to the log. *)
Definition logged (evs : list Event) : list string :=
  flat_map (fun e => match e with
                     | LogPrintf line => [line]
                     | _ => []
                     end) evs.

(** The write was refused or made on a closed connection. *)
Definition failedWrite (x : net.UDPConn * list Z * net.UDPAddr * bool) : Prop :=
  snd x = false.


(** The events [handleQuery] adds after the Zone lookups, in the world
    [w]: the multicast send if there is a multicast answer, then the
    unicast send if there is a unicast answer and the multicast send did not
    fail. *)
Definition sendEvents (Pack : dns.Msg -> Result (list Z)) (s : Server)
    (w : World) (m : dns.Msg) (from : net.UDPAddr) (unicast : bool) : list Event :=
  SendResponse m from unicast :: writeEvents Pack s w m from unicast.

(** The multicast and the unicast response to a query, as built from the
    accumulated answers (each is sent only if its answer is not empty). *)
Definition multicastResponse (s : Server) (query : dns.Msg) : dns.Msg :=
  responseMsg 0 (multicastAnswers (Config_Zone (config s)) (dns.Questions query)).
Definition unicastResponse (s : Server) (query : dns.Msg) : dns.Msg :=
  responseMsg (dns.Id (dns.Hdr query))
    (unicastAnswers (Config_Zone (config s)) (dns.Questions query)).

(** The failure of the multicast send of a query in the world [w], if the
    multicast response is sent and its send fails. *)
Definition multicastFailure (Pack : dns.Msg -> Result (list Z)) (s : Server)
    (w : World) (query : dns.Msg) (from : net.UDPAddr) : option error :=
  match multicastAnswers (Config_Zone (config s)) (dns.Questions query) with
  | [] => None
  | _ :: _ => fst (sendResponse Pack s (multicastResponse s query) from false w)
  end.

(** What [handleQuery] does after the Zone lookups of a query that passed
    the checks. *)
Definition responseEvents (Pack : dns.Msg -> Result (list Z)) (s : Server)
    (w : World) (query : dns.Msg) (from : net.UDPAddr) : list Event :=
  match multicastAnswers (Config_Zone (config s)) (dns.Questions query) with
  | [] => []
  | _ :: _ => sendEvents Pack s w (multicastResponse s query) from false
  end
  ++ match multicastFailure Pack s w query from with
     | Some _ => []
     | None =>
         match unicastAnswers (Config_Zone (config s)) (dns.Questions query) with
         | [] => []
         | _ :: _ => sendEvents Pack s w (unicastResponse s query) from true
         end
     end.

(** Whether an address is an IPv4 address, as [To4] tells it. *)
Definition isIPv4 (a : net.UDPAddr) : bool :=
  match net.To4 (net.addrIP a) with
  | Some _ => true
  | None => false
  end.

(** A read that gave a datagram. *)
Definition isDatagram (r : ReadResult) : bool :=
  match r with
  | Datagram _ _ => true
  | ReadError _ => false
  end.

(** How many times [tryAnnounce] has run for a call of [Announce]: once
    if the goroutine has run, once more if the timer has fired. *)
Definition rounds (a : Announcing) : nat :=
  (if spawned a then 0 else 1)
  + match tstate (timer a) with
    | TimerFired => 1
    | _ => 0
    end.

(** Every socket of the server is closed in the world. *)
Definition socketsClosed (s : Server) (w : World) : Prop :=
  forall c, In c (present s) -> isClosed c w = true.

(** The write [x] was made on a socket of the server [s], and it went
    through exactly if the world [w] lets it. *)
Definition writeOf (s : Server) (w : World)
    (x : net.UDPConn * list Z * net.UDPAddr * bool) : Prop :=
  In (fst (fst (fst x))) (present s)
  /\ snd x = writable w (Some (fst (fst (fst x)))) (snd (fst x)).

(** The invariant of the servers made by [NewServer]: the channel is open
    as long as [shutdown] is not set. *)
Definition server_inv (s : Server) : Prop :=
  shutdown s = false -> shutdownCh s = ChanOpen.

(** ** Sample data *)

Definition exRR : dns.RR := dns.mkRR "foo.local." 1 1 120 "192.168.1.10".

Definition exZone : Zone :=
  mkZone (fun q => if String.eqb (dns.Name q) "foo.local." then [exRR] else [])
         [exRR].

Definition exEmptyZone : Zone := mkZone (fun _ => []) [].

Definition exConn4 : net.UDPConn := net.mkUDPConn 3.
Definition exConn6 : net.UDPConn := net.mkUDPConn 4.

Definition exServer : Server :=
  mkServer (mkConfig exZone None false) (Some exConn4) (Some exConn6) false ChanOpen.

(** A server that could bind the IPv4 group only. *)
Definition exServer4 : Server :=
  mkServer (mkConfig exZone None false) (Some exConn4) None false ChanOpen.

Definition exFrom : net.UDPAddr := net.mkUDPAddr [192; 168; 1; 20] 5353.
Definition exFrom6 : net.UDPAddr :=
  net.mkUDPAddr [254; 128; 0; 0; 0; 0; 0; 0; 0; 0; 0; 0; 0; 0; 0; 7] 5353.

Definition exWorld : World := mkWorld 0 [] (fun _ _ => false) [].

(** A world in which the kernel refuses every datagram on [exConn4]. *)
Definition exWorldDown4 : World :=
  mkWorld 0 [] (fun c _ => net.conn_eqb c exConn4) [].

(** A world without a route to the multicast groups: the kernel refuses
    the datagrams for 224.0.0.251, and no others. *)
Definition exWorldNoGroup : World :=
  mkWorld 0 []
    (fun _ addr => Z.eqb (nth 12 (net.addrIP addr) 0) 224
                   && Z.eqb (nth 15 (net.addrIP addr) 0) 251) [].

(** A stand-in for the codec that keeps the id and the number of answers. *)
Definition exPack (m : dns.Msg) : Result (list Z) :=
  Ok [dns.Id (dns.Hdr m); Z.of_nat (List.length (dns.Answer m))].

Definition exQuestion (qclass : Z) : dns.Question :=
  dns.mkQuestion "foo.local." 1 qclass.

Definition exQuery (qs : list dns.Question) : dns.Msg :=
  dns.mkMsg
    (dns.mkMsgHdr 4660 false 0 false false false false false false false 0)
    false qs [] [] [].

(** A stand-in for the decoder: a packet of two bytes, an id and a class,
    is a query for foo.local. of that class; anything else is malformed. *)
Definition exUnpack (packet : list Z) : Result dns.Msg :=
  match packet with
  | [id; qclass] =>
      Ok (dns.mkMsg
            (dns.mkMsgHdr id false 0 false false false false false false false 0)
            false [exQuestion qclass] [] [] [])
  | _ => Fail (ErrExternal "malformed packet")
  end.

(** A codec that cannot pack anything. *)
Definition exPackFails (m : dns.Msg) : Result (list Z) :=
  Fail (ErrExternal "cannot pack").

(** ** Facts about the world and the trace *)

Lemma log_nil (w : World) : log [] w = w.
Proof.
  destruct w as [t c r tr]; unfold log; simpl.
  now rewrite app_nil_r.
Qed.

Lemma log_log (evs1 evs2 : list Event) (w : World) :
  log evs2 (log evs1 w) = log (evs1 ++ evs2) w.
Proof.
  unfold log; simpl.
  now rewrite map_app, app_assoc.
Qed.

Lemma emit_log (e : Event) (w : World) : emit e w = (tt, log [e] w).
Proof. reflexivity. Qed.

Lemma events_log (evs : list Event) (w : World) :
  events (log evs w) = events w ++ evs.
Proof.
  unfold events, log; simpl.
  rewrite map_app, map_map; simpl.
  now rewrite map_id.
Qed.

Lemma sends_app (a b : list Event) : sends (a ++ b) = sends a ++ sends b.
Proof. apply flat_map_app. Qed.

Lemma writes_app (a b : list Event) : writes (a ++ b) = writes a ++ writes b.
Proof. apply flat_map_app. Qed.

Lemma asked_app (a b : list Event) : asked (a ++ b) = asked a ++ asked b.
Proof. apply flat_map_app. Qed.

Lemma sends_ZoneRecords (qs : list dns.Question) : sends (map ZoneRecords qs) = [].
Proof. induction qs; simpl; auto. Qed.

Lemma writes_ZoneRecords (qs : list dns.Question) : writes (map ZoneRecords qs) = [].
Proof. induction qs; simpl; auto. Qed.

(** The test [q.Qclass&(1<<15) != 0] reads bit 15 of the class. *)
Lemma qclass_mask_testbit (x : Z) :
  negb (Z.eqb (Z.land x (Z.shiftl 1 15)) 0) = Z.testbit x 15.
Proof.
  change (Z.shiftl 1 15) with (2 ^ 15).
  destruct (Z.testbit x 15) eqn:Hb.
  - destruct (Z.eqb_spec (Z.land x (2 ^ 15)) 0) as [E | E]; [ | reflexivity ].
    assert (Hl : Z.testbit (Z.land x (2 ^ 15)) 15 = true).
    { rewrite Z.land_spec, Hb. reflexivity. }
    rewrite E in Hl. discriminate Hl.
  - assert (E : Z.land x (2 ^ 15) = 0).
    { apply Z.bits_inj'. intros n Hn.
      rewrite Z.land_spec, Z.bits_0, Z.pow2_bits_eqb by lia.
      destruct (Z.eqb_spec 15 n) as [<- | _].
      - rewrite Hb. reflexivity.
      - apply andb_false_r. }
    rewrite E. reflexivity.
Qed.

(** ** Question routing *)

Lemma handleQuestion_eq (s : Server) (q : dns.Question) (w : World) :
  handleQuestion s q w = (routed (Config_Zone (config s)) q, log [ZoneRecords q] w).
Proof.
  unfold handleQuestion, zone_Records, bind, ret, routed, wantsUnicast.
  rewrite emit_log, qclass_mask_testbit.
  destruct (Z.testbit (dns.Qclass q) 15 || forceUnicastResponses);
    destruct (Records (Config_Zone (config s)) q); reflexivity.
Qed.

(** C1.  [handleQuestion] routes per question and all or nothing: when bit
    15 of the class is set (or [forceUnicastResponses] is on) every record
    the Zone returns for the question is in the unicast result and the
    multicast result is empty; when the bit is clear every record is in the
    multicast result and the unicast result is empty; in no case are both
    results non-empty. *)
Theorem handleQuestion_routes_all_or_nothing :
  forall (s : Server) (q : dns.Question) (w : World),
    let recs := Records (Config_Zone (config s)) q in
    let multicastRecs := fst (fst (handleQuestion s q w)) in
    let unicastRecs := snd (fst (handleQuestion s q w)) in
    (Z.testbit (dns.Qclass q) 15 || forceUnicastResponses = true ->
       unicastRecs = recs /\ multicastRecs = [])
    /\ (Z.testbit (dns.Qclass q) 15 = false ->
       multicastRecs = recs /\ unicastRecs = [])
    /\ (multicastRecs = [] \/ unicastRecs = []).
Proof.
  intros s q w recs multicastRecs unicastRecs.
  subst multicastRecs unicastRecs recs.
  rewrite handleQuestion_eq; unfold routed, wantsUnicast; cbn [fst snd].
  split; [ | split ].
  - intro Hb. rewrite Hb. split; reflexivity.
  - intro Hb. rewrite Hb. split; reflexivity.
  - destruct (Z.testbit (dns.Qclass q) 15 || forceUnicastResponses); auto.
Qed.

Lemma routed_no_records (z : Zone) (qs : list dns.Question) :
  (forall q, In q qs -> Records z q = []) ->
  multicastAnswers z qs = [] /\ unicastAnswers z qs = [].
Proof.
  unfold unicastAnswers, multicastAnswers.
  induction qs as [ | q qs IH]; intro Hall; simpl; [ auto | ].
  destruct IH as [IH1 IH2]; [ intros q' Hq'; apply Hall; now right | ].
  rewrite IH1, IH2.
  unfold routed. rewrite (Hall q) by now left.
  destruct (wantsUnicast q); auto.
Qed.

Lemma rangeQuestions_eq (s : Server) (qs : list dns.Question) :
  forall (unicastAnswer multicastAnswer : list dns.RR) (w : World),
    rangeQuestions s qs unicastAnswer multicastAnswer w
    = ((unicastAnswer ++ unicastAnswers (Config_Zone (config s)) qs,
        multicastAnswer ++ multicastAnswers (Config_Zone (config s)) qs),
       log (map ZoneRecords qs) w).
Proof.
  unfold unicastAnswers, multicastAnswers.
  induction qs as [ | q qs IH]; intros ua ma w; simpl.
  - unfold ret. now rewrite !app_nil_r, log_nil.
  - unfold bind. rewrite handleQuestion_eq, IH, log_log.
    cbn [fst snd]. now rewrite <- !app_assoc.
Qed.

(** The builder returns a message exactly for a non-empty answer, and the
    message is fixed by the answer and the id. *)
Lemma resp_cases (query : dns.Msg) (ua ma : list dns.RR) (unicast : bool) :
  let answer := if unicast then ua else ma in
  (answer = [] /\ resp query ua ma unicast = None)
  \/ (answer <> []
      /\ resp query ua ma unicast
         = Some (responseMsg (if unicast then dns.Id (dns.Hdr query) else 0) answer)).
Proof.
  unfold resp, responseMsg, responseHdr, dns.OpcodeQuery.
  destruct (if unicast then ua else ma) eqn:Ha; simpl.
  - left. auto.
  - right. split; [ discriminate | reflexivity ].
Qed.

Section CodecFacts.

Variable Pack : dns.Msg -> Result (list Z).

Lemma conn_WriteToUDP_log (c : net.UDPConn) (buf : list Z) (addr : net.UDPAddr)
    (evs : list Event) (w : World) :
  exists (r : option error) (ok : bool),
    conn_WriteToUDP c buf addr (log evs w)
    = (r, log (evs ++ [WriteToUDP c buf addr ok]) w)
    /\ r = fst (conn_WriteToUDP c buf addr w)
    /\ (ok = true <-> r = None)
    /\ ok = negb (isClosed c w || refused w c addr).
Proof.
  unfold conn_WriteToUDP, bind, ret.
  change (isClosed c (log evs w)) with (isClosed c w).
  change (refused (log evs w)) with (refused w).
  destruct (isClosed c w); [ | destruct (refused w c addr) ];
    rewrite !emit_log, log_log; cbn [fst];
    eexists; eexists; (split; [ reflexivity | ]);
    (split; [ reflexivity | ]); (split; [ | reflexivity ]);
    split; congruence.
Qed.

(** [sendResponse] records the call and makes at most one write, of the
    packed message; whether it fails does not depend on the trace. *)
Lemma sendResponse_log (s : Server) (m : dns.Msg) (from : net.UDPAddr)
    (u : bool) (evs : list Event) (w : World) :
  sendResponse Pack s m from u (log evs w)
  = (fst (sendResponse Pack s m from u w),
     log (evs ++ SendResponse m from u :: writeEvents Pack s w m from u) w).
Proof.
  unfold sendResponse, writeEvents, bind, ret.
  rewrite !emit_log, log_log.
  fold (connFor s from). fold (destFor from u).
  destruct (Pack m) as [buf | err]; [ | reflexivity ].
  destruct (connFor s from) as [c | ]; [ | reflexivity ].
  destruct (conn_WriteToUDP_log c buf (destFor from u)
              (evs ++ [SendResponse m from u]) w)
    as (r & ok & Hw & Hr & _ & Hok).
  destruct (conn_WriteToUDP_log c buf (destFor from u) [SendResponse m from u] w)
    as (r0 & ok0 & Hw0 & Hr0 & _ & _).
  rewrite Hw. cbn [fst]. rewrite Hw0. cbn [fst].
  rewrite <- app_assoc. unfold writable. simpl. congruence.
Qed.

Lemma sendResponse_succeeds (s : Server) (m : dns.Msg) (from : net.UDPAddr)
    (u : bool) (w : World) (buf : list Z) (c : net.UDPConn) :
  Pack m = Ok buf ->
  connFor s from = Some c ->
  writable w (Some c) (destFor from u) = true ->
  fst (sendResponse Pack s m from u w) = None.
Proof.
  intros HP Hc Hw. unfold sendResponse, bind, ret.
  rewrite emit_log, HP. fold (connFor s from). fold (destFor from u). rewrite Hc.
  destruct (conn_WriteToUDP_log c buf (destFor from u) [SendResponse m from u] w)
    as (r & ok & Heq & _ & Hok & Hdead).
  rewrite Heq. cbn [fst]. apply Hok. rewrite Hdead. exact Hw.
Qed.

Lemma writeEvents_facts (s : Server) (w : World) (m : dns.Msg)
    (from : net.UDPAddr) (u : bool) :
  let tail := writeEvents Pack s w m from u in
  sends tail = [] /\ asked tail = [] /\ (List.length (writes tail) <= 1)%nat
  /\ (forall c buf addr ok, In (c, buf, addr, ok) (writes tail) -> Pack m = Ok buf)
  /\ (forall buf c,
        Pack m = Ok buf -> connFor s from = Some c ->
        writes tail
        = [(c, buf, destFor from u, writable w (Some c) (destFor from u))]).
Proof.
  unfold writeEvents.
  destruct (Pack m) as [buf | err]; [ destruct (connFor s from) as [c | ] | ];
    simpl; repeat split; auto; try congruence; try (intros; contradiction).
  intros c' buf' addr ok [E | []]. congruence.
Qed.

(** What [handleQuery] does with a query that passes its three checks:
    the Zone is asked every question in order, then at most two responses
    are handed to [sendResponse], the multicast one first, and the unicast
    one only if the multicast one did not fail. *)
Lemma handleQuery_valid (s : Server) (query : dns.Msg) (from : net.UDPAddr)
    (w : World) :
  dns.Opcode (dns.Hdr query) = 0 ->
  dns.Rcode (dns.Hdr query) = 0 ->
  dns.Truncated (dns.Hdr query) = false ->
  let z := Config_Zone (config s) in
  let qs := dns.Questions query in
  let ma := multicastAnswers z qs in
  let ua := unicastAnswers z qs in
  let mresp := responseMsg 0 ma in
  let uresp := responseMsg (dns.Id (dns.Hdr query)) ua in
  let mfail := match ma with
               | [] => None
               | _ :: _ => fst (sendResponse Pack s mresp from false w)
               end in
  exists evs : list Event,
    handleQuery Pack s query from w
    = (match mfail with
       | Some e => Some (ErrMulticastSend e)
       | None =>
           match ua with
           | [] => None
           | _ :: _ =>
               option_map ErrUnicastSend (fst (sendResponse Pack s uresp from true w))
           end
       end,
       log (map ZoneRecords qs ++ evs) w)
    /\ sends evs
       = match ma with [] => [] | _ :: _ => [(mresp, from, false)] end
         ++ match mfail with
            | Some _ => []
            | None => match ua with [] => [] | _ :: _ => [(uresp, from, true)] end
            end
    /\ asked evs = []
    /\ (forall c buf addr ok,
          In (c, buf, addr, ok) (writes evs) ->
          (ma <> [] /\ Pack mresp = Ok buf) \/ (ua <> [] /\ Pack uresp = Ok buf))
    /\ (List.length (writes evs) <= List.length (sends evs))%nat
    /\ (sends evs = [] -> evs = [])
    /\ (forall m a u buf c,
          In (m, a, u) (sends evs) ->
          Pack m = Ok buf -> connFor s a = Some c ->
          In (c, buf, destFor a u, writable w (Some c) (destFor a u)) (writes evs)).
Proof.
  intros Hop Hrc Htc z qs ma ua mresp uresp mfail.
  unfold handleQuery. rewrite Hop, Hrc, Htc. cbn [negb Z.eqb dns.OpcodeQuery].
  unfold bind at 1. rewrite rangeQuestions_eq. cbn [fst snd app].
  fold z qs ma ua.
  destruct (resp_cases query ua ma false) as [[Hm Hr] | [Hm Hr]];
    destruct (resp_cases query ua ma true) as [[Hu Hr'] | [Hu Hr']];
    cbn beta iota zeta in Hm, Hu, Hr, Hr'; rewrite Hr, ?Hr'; fold mresp uresp.
  - (* nothing to send *)
    exists []. subst mfail. rewrite Hm, Hu, app_nil_r. simpl.
    repeat split; auto; intros; contradiction.
  - (* the unicast response only *)
    unfold bind.
    rewrite (sendResponse_log s uresp from true (map ZoneRecords qs) w).
    destruct (writeEvents_facts s w uresp from true) as (Hs & Ha & Hl & Hw & Hx).
    set (tail := writeEvents Pack s w uresp from true) in *.
    exists (SendResponse uresp from true :: tail).
    subst mfail. rewrite Hm.
    destruct ua as [ | r ua']; [ congruence | ].
    split; [ destruct (fst (sendResponse Pack s uresp from true w)); reflexivity | ].
    simpl. rewrite Hs, Ha. repeat split; auto; try discriminate.
    + intros c buf addr ok Hin. right. split; [ discriminate | eauto ].
    + intros m a u buf c [E | []] HP Hc. inversion E; subst m a u.
      rewrite (Hx buf c HP Hc). now left.
  - (* the multicast response only *)
    unfold bind.
    rewrite (sendResponse_log s mresp from false (map ZoneRecords qs) w).
    destruct (writeEvents_facts s w mresp from false) as (Hs & Ha & Hl & Hw & Hx).
    set (tail := writeEvents Pack s w mresp from false) in *.
    exists (SendResponse mresp from false :: tail).
    subst mfail. rewrite Hu.
    destruct ma as [ | r ma']; [ congruence | ].
    split; [ destruct (fst (sendResponse Pack s mresp from false w)); reflexivity | ].
    simpl. rewrite Hs, Ha.
    repeat split; auto; try discriminate.
    + destruct (fst (sendResponse Pack s mresp from false w)); reflexivity.
    + intros c buf addr ok Hin. left. split; [ discriminate | eauto ].
    + intros m a u buf c [E | []] HP Hc. inversion E; subst m a u.
      rewrite (Hx buf c HP Hc). now left.
  - (* both *)
    unfold bind.
    rewrite (sendResponse_log s mresp from false (map ZoneRecords qs) w).
    destruct (writeEvents_facts s w mresp from false) as (Hs & Ha & Hl & Hw & Hx).
    set (tail := writeEvents Pack s w mresp from false) in *.
    pose proof (sendResponse_log s uresp from true
                  (map ZoneRecords qs ++ SendResponse mresp from false :: tail) w)
      as Heq'.
    destruct (writeEvents_facts s w uresp from true) as (Hs' & Ha' & Hl' & Hw' & Hx').
    set (tail' := writeEvents Pack s w uresp from true) in *.
    subst mfail.
    destruct ma as [ | r ma']; [ congruence | ].
    destruct ua as [ | r' ua']; [ congruence | ].
    destruct (fst (sendResponse Pack s mresp from false w)) as [e | ] eqn:Hfail.
    + exists (SendResponse mresp from false :: tail).
      split; [ reflexivity | ].
      simpl. rewrite Hs, Ha. repeat split; auto; try discriminate.
      * intros c buf addr ok Hin. left. split; [ discriminate | eauto ].
      * intros m a u buf c [E | []] HP Hc. inversion E; subst m a u.
        rewrite (Hx buf c HP Hc). now left.
    + rewrite Heq'.
      exists ((SendResponse mresp from false :: tail)
              ++ SendResponse uresp from true :: tail').
      split.
      { rewrite <- !app_assoc.
        destruct (fst (sendResponse Pack s uresp from true w)); reflexivity. }
      rewrite sends_app, asked_app, writes_app. simpl.
      rewrite Hs, Ha, Hs', Ha'. repeat split; auto; try discriminate.
      * intros c buf addr ok Hin. apply in_app_or in Hin as [Hin | Hin].
        -- left. split; [ discriminate | eauto ].
        -- right. split; [ discriminate | eauto ].
      * rewrite length_app. simpl. lia.
      * intros m a u buf c Hin HP Hc. apply in_or_app.
        destruct Hin as [E | [E | []]]; inversion E; subst m a u.
        -- left. rewrite (Hx buf c HP Hc). now left.
        -- right. rewrite (Hx' buf c HP Hc). now left.
Qed.

Lemma handleQuery_invalid (s : Server) (query : dns.Msg) (from : net.UDPAddr)
    (w : World) :
  dns.Opcode (dns.Hdr query) <> 0
  \/ dns.Rcode (dns.Hdr query) <> 0
  \/ dns.Truncated (dns.Hdr query) = true ->
  exists err : error, handleQuery Pack s query from w = (Some err, w).
Proof.
  intro Hbad. unfold handleQuery, dns.OpcodeQuery.
  destruct (Z.eqb_spec (dns.Opcode (dns.Hdr query)) 0) as [Hop | Hop]; cbn [negb].
  2: { eexists. reflexivity. }
  destruct (Z.eqb_spec (dns.Rcode (dns.Hdr query)) 0) as [Hrc | Hrc]; cbn [negb].
  2: { eexists. reflexivity. }
  destruct (dns.Truncated (dns.Hdr query)) eqn:Htc.
  - eexists. reflexivity.
  - destruct Hbad as [H | [H | H]]; [ contradiction | contradiction | discriminate ].
Qed.

Lemma answers_single (z : Zone) (qs1 qs2 : list dns.Question) (q : dns.Question) :
  (forall q', In q' (qs1 ++ qs2) -> Records z q' = []) ->
  multicastAnswers z (qs1 ++ q :: qs2) = fst (routed z q)
  /\ unicastAnswers z (qs1 ++ q :: qs2) = snd (routed z q).
Proof.
  intro Hnone.
  destruct (routed_no_records z qs1) as [M1 U1];
    [ intros q' Hq'; apply Hnone, in_or_app; now left | ].
  destruct (routed_no_records z qs2) as [M2 U2];
    [ intros q' Hq'; apply Hnone, in_or_app; now right | ].
  unfold multicastAnswers, unicastAnswers in *.
  rewrite !flat_map_app. simpl.
  now rewrite M1, M2, U1, U2, !app_nil_r.
Qed.

(** C2.  A query with opcode 0, response code 0 and the truncated flag
    clear, one of whose questions has records in the Zone while the others
    have none, makes [handleQuery] hand exactly one response to
    [sendResponse]: its header has Response and Authoritative set, Opcode 0,
    Truncated, RecursionDesired, RecursionAvailable, the three reserved
    bits and Rcode clear, Compress is set, the answer is the Zone's records
    for the question, and the id is the query's when the response goes out
    unicast and 0 when it goes out multicast.  At most one datagram is
    written; when the response packs and the socket for the sender's
    address family is there and takes the write, [handleQuery] returns nil
    and exactly one datagram, the packed response, is written: to the
    sender for a unicast response, to the multicast group otherwise. *)
Theorem handleQuery_one_matching_question_one_response :
  forall (s : Server) (query : dns.Msg) (from : net.UDPAddr) (w : World)
         (qs1 qs2 : list dns.Question) (q : dns.Question),
    dns.Opcode (dns.Hdr query) = 0 ->
    dns.Rcode (dns.Hdr query) = 0 ->
    dns.Truncated (dns.Hdr query) = false ->
    dns.Questions query = qs1 ++ q :: qs2 ->
    Records (Config_Zone (config s)) q <> [] ->
    (forall q', In q' (qs1 ++ qs2) -> Records (Config_Zone (config s)) q' = []) ->
    let unicast := Z.testbit (dns.Qclass q) 15 || forceUnicastResponses in
    let response :=
      dns.mkMsg
        (dns.mkMsgHdr (if unicast then dns.Id (dns.Hdr query) else 0)
           true 0 true false false false false false false 0)
        true [] (Records (Config_Zone (config s)) q) [] [] in
    exists evs : list Event,
      snd (handleQuery Pack s query from w) = log evs w
      /\ sends evs = [(response, from, unicast)]
      /\ (List.length (writes evs) <= 1)%nat
      /\ (forall (buf : list Z) (c : net.UDPConn),
            Pack response = Ok buf ->
            connFor s from = Some c ->
            writable w (Some c) (destFor from unicast) = true ->
            fst (handleQuery Pack s query from w) = None
            /\ writes evs = [(c, buf, destFor from unicast, true)]).
Proof.
  intros s query from w qs1 qs2 q Hop Hrc Htc Hqs Hrec Hnone unicast response.
  destruct (handleQuery_valid s query from w Hop Hrc Htc)
    as (evs & Heq & Hsends & _ & _ & Hlen & _ & Hwire).
  destruct (answers_single (Config_Zone (config s)) qs1 qs2 q Hnone) as [HM HU].
  rewrite Hqs, HM, HU in *. clear HM HU.
  exists (map ZoneRecords (qs1 ++ q :: qs2) ++ evs).
  rewrite Heq. cbn [fst snd]. split; [ reflexivity | ].
  rewrite writes_app, writes_ZoneRecords, sends_app, sends_ZoneRecords.
  cbn [app].
  assert (Hsingle : forall (l : list (net.UDPConn * list Z * net.UDPAddr * bool)) x,
             (List.length l <= 1)%nat -> In x l -> l = [x]).
  { intros [ | y [ | y' l]] x Hl Hin; simpl in *;
      [ contradiction | destruct Hin as [-> | []]; reflexivity | lia ]. }
  subst unicast response. unfold routed, wantsUnicast in *.
  destruct (Z.testbit (dns.Qclass q) 15 || forceUnicastResponses);
    cbn [fst snd] in *;
    destruct (Records (Config_Zone (config s)) q) as [ | r recs] eqn:Hr;
    try congruence; cbn [app] in Hsends.
  - (* unicast *)
    rewrite Hsends in Hlen.
    split; [ exact Hsends | ]. split; [ exact Hlen | ].
    intros buf c HP Hc Hw. split.
    + now rewrite (sendResponse_succeeds s
                     (responseMsg (dns.Id (dns.Hdr query)) (r :: recs))
                     from true w buf c HP Hc Hw).
    + apply Hsingle; [ exact Hlen | ].
      assert (Hin : In (responseMsg (dns.Id (dns.Hdr query)) (r :: recs), from, true)
                       (sends evs)) by (rewrite Hsends; now left).
      pose proof (Hwire _ _ _ buf c Hin HP Hc) as Hin'.
      rewrite Hw in Hin'. exact Hin'.
  - (* multicast *)
    assert (Hsends' : sends evs = [(responseMsg 0 (r :: recs), from, false)]).
    { rewrite Hsends.
      destruct (fst (sendResponse Pack s (responseMsg 0 (r :: recs)) from false w));
        reflexivity. }
    clear Hsends. rewrite Hsends' in Hlen.
    split; [ exact Hsends' | ]. split; [ exact Hlen | ].
    intros buf c HP Hc Hw. split.
    + now rewrite (sendResponse_succeeds s (responseMsg 0 (r :: recs))
                     from false w buf c HP Hc Hw).
    + apply Hsingle; [ exact Hlen | ].
      assert (Hin : In (responseMsg 0 (r :: recs), from, false) (sends evs))
        by (rewrite Hsends'; now left).
      pose proof (Hwire _ _ _ buf c Hin HP Hc) as Hin'.
      rewrite Hw in Hin'. exact Hin'.
Qed.

(** C3.  A query with a non-zero opcode, a non-zero response code or the
    truncated flag set makes [handleQuery] return an error and leaves the
    world as it was: no question is put to the Zone, no response is built
    or sent. *)
Theorem handleQuery_rejects_without_effect :
  forall (s : Server) (query : dns.Msg) (from : net.UDPAddr) (w : World),
    dns.Opcode (dns.Hdr query) <> 0
    \/ dns.Rcode (dns.Hdr query) <> 0
    \/ dns.Truncated (dns.Hdr query) = true ->
    exists err : error,
      fst (handleQuery Pack s query from w) = Some err
      /\ snd (handleQuery Pack s query from w) = w
      /\ asked (events (snd (handleQuery Pack s query from w))) = asked (events w)
      /\ sends (events (snd (handleQuery Pack s query from w))) = sends (events w)
      /\ writes (events (snd (handleQuery Pack s query from w))) = writes (events w).
Proof.
  intros s query from w Hbad.
  destruct (handleQuery_invalid s query from w Hbad) as [err Heq].
  exists err. rewrite Heq. cbn [fst snd]. repeat split.
Qed.

(** C10.  A query that passes the three checks and whose questions (if it
    has any) all have no records in the Zone makes [handleQuery] return nil;
    the Zone is asked each question, nothing is handed to [sendResponse]
    and nothing is written. *)
Theorem handleQuery_no_records_is_silent :
  forall (s : Server) (query : dns.Msg) (from : net.UDPAddr) (w : World),
    dns.Opcode (dns.Hdr query) = 0 ->
    dns.Rcode (dns.Hdr query) = 0 ->
    dns.Truncated (dns.Hdr query) = false ->
    (forall q, In q (dns.Questions query) ->
               Records (Config_Zone (config s)) q = []) ->
    handleQuery Pack s query from w
    = (None, log (map ZoneRecords (dns.Questions query)) w)
    /\ sends (map ZoneRecords (dns.Questions query)) = []
    /\ writes (map ZoneRecords (dns.Questions query)) = [].
Proof.
  intros s query from w Hop Hrc Htc Hnone.
  destruct (handleQuery_valid s query from w Hop Hrc Htc)
    as (evs & Heq & Hsends & _ & _ & _ & Hnil & _).
  destruct (routed_no_records _ _ Hnone) as [HM HU].
  rewrite HM, HU in *. cbn [app] in Hsends.
  rewrite (Hnil Hsends), app_nil_r in Heq.
  split; [ exact Heq | ].
  split; [ apply sends_ZoneRecords | apply writes_ZoneRecords ].
Qed.

(** C5, as the code has it.  [handleQuestion] puts the question to the
    Zone once and as it was received, the class field with its top bit
    included; the bit is read afterwards, to choose between the multicast
    and the unicast result. *)
Theorem handleQuestion_passes_question_unchanged :
  forall (s : Server) (q : dns.Question) (w : World),
    asked (events (snd (handleQuestion s q w))) = asked (events w) ++ [q]
    /\ fst (handleQuestion s q w)
       = if Z.testbit (dns.Qclass q) 15 || forceUnicastResponses
         then ([], Records (Config_Zone (config s)) q)
         else (Records (Config_Zone (config s)) q, []).
Proof.
  intros s q w. rewrite handleQuestion_eq. cbn [fst snd].
  rewrite events_log, asked_app. split; reflexivity.
Qed.

(** C6, as the code has it.  When both answer sequences are non-empty the
    multicast response is sent first.  If that send fails, [handleQuery]
    returns the failure as a multicast send error and the unicast response
    is not handed to [sendResponse]; if it succeeds, the unicast response
    is sent next and its failure, if any, is returned as a unicast send
    error. *)
Theorem handleQuery_multicast_failure_ends_the_call :
  forall (s : Server) (query : dns.Msg) (from : net.UDPAddr) (w : World),
    dns.Opcode (dns.Hdr query) = 0 ->
    dns.Rcode (dns.Hdr query) = 0 ->
    dns.Truncated (dns.Hdr query) = false ->
    let z := Config_Zone (config s) in
    let ma := multicastAnswers z (dns.Questions query) in
    let ua := unicastAnswers z (dns.Questions query) in
    let mresp := responseMsg 0 ma in
    let uresp := responseMsg (dns.Id (dns.Hdr query)) ua in
    ma <> [] ->
    ua <> [] ->
    exists evs : list Event,
      snd (handleQuery Pack s query from w) = log evs w
      /\ match fst (sendResponse Pack s mresp from false w) with
         | Some e =>
             fst (handleQuery Pack s query from w) = Some (ErrMulticastSend e)
             /\ sends evs = [(mresp, from, false)]
         | None =>
             fst (handleQuery Pack s query from w)
             = option_map ErrUnicastSend (fst (sendResponse Pack s uresp from true w))
             /\ sends evs = [(mresp, from, false); (uresp, from, true)]
         end.
Proof.
  intros s query from w Hop Hrc Htc z ma ua mresp uresp Hma Hua.
  destruct (handleQuery_valid s query from w Hop Hrc Htc)
    as (evs & Heq & Hsends & _ & _ & _ & _ & _).
  fold z ma ua mresp uresp in Heq, Hsends.
  exists (map ZoneRecords (dns.Questions query) ++ evs).
  rewrite Heq. cbn [fst snd]. split; [ reflexivity | ].
  rewrite sends_app, sends_ZoneRecords, Hsends. cbn [app].
  destruct ma as [ | r ma']; [ congruence | ].
  destruct ua as [ | r' ua']; [ congruence | ].
  destruct (fst (sendResponse Pack s mresp from false w)); split; reflexivity.
Qed.

(** A successful [announceOnce]: the Zone is asked for its announcement,
    which is written to the group of each socket the server has. *)
Lemma announceOnce_eq (s : Server) (w : World) (buf : list Z) :
  Announcement (Config_Zone (config s)) <> [] ->
  Pack (announceMsg (Announcement (Config_Zone (config s)))) = Ok buf ->
  announceOnce Pack s w
  = match ipv4List s with
    | Some c4 =>
        if isClosed c4 w || refused w c4 ipv4Addr
        then (fst (conn_WriteToUDP c4 buf ipv4Addr w),
              log [ZoneAnnouncement; WriteToUDP c4 buf ipv4Addr false] w)
        else
          match ipv6List s with
          | Some c6 =>
              (fst (conn_WriteToUDP c6 buf ipv6Addr w),
               log [ZoneAnnouncement; WriteToUDP c4 buf ipv4Addr true;
                    WriteToUDP c6 buf ipv6Addr
                      (negb (isClosed c6 w || refused w c6 ipv6Addr))] w)
          | None =>
              (None, log [ZoneAnnouncement; WriteToUDP c4 buf ipv4Addr true] w)
          end
    | None =>
        match ipv6List s with
        | Some c6 =>
            (fst (conn_WriteToUDP c6 buf ipv6Addr w),
             log [ZoneAnnouncement;
                  WriteToUDP c6 buf ipv6Addr
                    (negb (isClosed c6 w || refused w c6 ipv6Addr))] w)
        | None => (None, log [ZoneAnnouncement] w)
        end
    end.
Proof.
  intros Hrecs HPack.
  unfold announceOnce, zone_Announcement, bind, ret.
  rewrite emit_log.
  destruct (Announcement (Config_Zone (config s))) as [ | r recs] eqn:Hr;
    [ congruence | ].
  cbn [List.length Nat.eqb]. rewrite HPack.
  destruct (ipv4List s) as [c4 | ]; destruct (ipv6List s) as [c6 | ].
  - destruct (conn_WriteToUDP_log c4 buf ipv4Addr [ZoneAnnouncement] w)
      as (r4 & ok4 & Hw4 & Hr4 & Hok4 & Hdead4).
    rewrite Hw4.
    destruct (isClosed c4 w || refused w c4 ipv4Addr) eqn:Hd4;
      cbn [negb] in Hdead4; subst ok4.
    + destruct r4 as [e | ]; [ now rewrite <- Hr4 | ].
      destruct Hok4 as [_ Hok4]. discriminate (Hok4 eq_refl).
    + destruct r4 as [e | ].
      * destruct Hok4 as [Hok4 _]. discriminate (Hok4 eq_refl).
      * destruct (conn_WriteToUDP_log c6 buf ipv6Addr
                    ([ZoneAnnouncement] ++ [WriteToUDP c4 buf ipv4Addr true]) w)
          as (r6 & ok6 & Hw6 & Hr6 & Hok6 & Hdead6).
        rewrite Hw6, <- Hr6, Hdead6. reflexivity.
  - destruct (conn_WriteToUDP_log c4 buf ipv4Addr [ZoneAnnouncement] w)
      as (r4 & ok4 & Hw4 & Hr4 & Hok4 & Hdead4).
    rewrite Hw4.
    destruct (isClosed c4 w || refused w c4 ipv4Addr) eqn:Hd4;
      cbn [negb] in Hdead4; subst ok4.
    + destruct r4 as [e | ]; [ now rewrite <- Hr4 | ].
      destruct Hok4 as [_ Hok4]. discriminate (Hok4 eq_refl).
    + destruct r4 as [e | ]; [ | reflexivity ].
      destruct Hok4 as [Hok4 _]. discriminate (Hok4 eq_refl).
  - destruct (conn_WriteToUDP_log c6 buf ipv6Addr [ZoneAnnouncement] w)
      as (r6 & ok6 & Hw6 & Hr6 & Hok6 & Hdead6).
    rewrite Hw6, <- Hr6, Hdead6. reflexivity.
  - reflexivity.
Qed.

Lemma announceOnce_nothing (s : Server) (w : World) :
  Announcement (Config_Zone (config s)) = [] ->
  announceOnce Pack s w = (None, log [ZoneAnnouncement] w).
Proof.
  intro Hr. unfold announceOnce, zone_Announcement, bind, ret.
  rewrite emit_log, Hr. reflexivity.
Qed.

Lemma announceOnce_unpackable (s : Server) (w : World) (err : error) :
  Announcement (Config_Zone (config s)) <> [] ->
  Pack (announceMsg (Announcement (Config_Zone (config s)))) = Fail err ->
  announceOnce Pack s w = (Some err, log [ZoneAnnouncement] w).
Proof.
  intros Hrecs HPack. unfold announceOnce, zone_Announcement, bind, ret.
  rewrite emit_log.
  destruct (Announcement (Config_Zone (config s))) as [ | r recs] eqn:Hr;
    [ congruence | ].
  cbn [List.length Nat.eqb]. now rewrite HPack.
Qed.

(** Every call of [announceOnce] extends the trace by calls among which
    each write carries the packed announcement, which is not empty. *)
Lemma announceOnce_writes (s : Server) (w : World) :
  exists evs : list Event,
    snd (announceOnce Pack s w) = log evs w
    /\ sends evs = []
    /\ forall c buf addr ok,
         In (c, buf, addr, ok) (writes evs) ->
         Announcement (Config_Zone (config s)) <> []
         /\ Pack (announceMsg (Announcement (Config_Zone (config s)))) = Ok buf.
Proof.
  destruct (Announcement (Config_Zone (config s))) as [ | r recs] eqn:Hr.
  - rewrite (announceOnce_nothing s w Hr). eexists. split; [ reflexivity | ].
    split; [ reflexivity | intros c buf addr ok Hin; simpl in Hin; contradiction ].
  - assert (Hne : Announcement (Config_Zone (config s)) <> []) by congruence.
    destruct (Pack (announceMsg (Announcement (Config_Zone (config s)))))
      as [buf | err] eqn:HP.
    + rewrite (announceOnce_eq s w buf Hne HP). rewrite Hr in HP.
      destruct (ipv4List s) as [c4 | ]; destruct (ipv6List s) as [c6 | ];
        try destruct (isClosed c4 w || refused w c4 ipv4Addr);
        (eexists; split; [ reflexivity | ]; split; [ reflexivity | ]);
        simpl; intros c buf' addr ok Hin;
        (split; [ discriminate | ]);
        repeat (destruct Hin as [Hin | Hin]; [ congruence | ]);
        contradiction.
    + rewrite (announceOnce_unpackable s w err Hne HP).
      eexists. split; [ reflexivity | ].
      split; [ reflexivity | intros c buf addr ok Hin; simpl in Hin; contradiction ].
Qed.

(** C4.  No response with an empty answer is sent.  The builder [resp]
    returns nil exactly when the answer it is asked for is empty; every
    message [handleQuery] hands to [sendResponse] has a non-empty answer and
    every datagram it writes is such a message packed; [announceOnce]
    returns at once, with nothing written, when the Zone has nothing to
    announce, and whatever it writes is the packed announcement of a
    non-empty record set. *)
Theorem empty_answer_is_never_sent :
  (forall (query : dns.Msg) (ua ma : list dns.RR) (unicast : bool),
      resp query ua ma unicast = None <-> (if unicast then ua else ma) = [])
  /\ (forall (s : Server) (query : dns.Msg) (from : net.UDPAddr) (w : World),
        exists evs : list Event,
          snd (handleQuery Pack s query from w) = log evs w
          /\ (forall m a u, In (m, a, u) (sends evs) -> dns.Answer m <> [])
          /\ (forall c buf addr ok,
                In (c, buf, addr, ok) (writes evs) ->
                exists m, Pack m = Ok buf /\ dns.Answer m <> []))
  /\ (forall (s : Server) (w : World),
        Announcement (Config_Zone (config s)) = [] ->
        announceOnce Pack s w = (None, log [ZoneAnnouncement] w))
  /\ (forall (s : Server) (w : World),
        exists evs : list Event,
          snd (announceOnce Pack s w) = log evs w
          /\ sends evs = []
          /\ (forall c buf addr ok,
                In (c, buf, addr, ok) (writes evs) ->
                exists m, Pack m = Ok buf /\ dns.Answer m <> [])).
Proof.
  split; [ | split; [ | split ] ].
  - intros query ua ma unicast.
    destruct (resp_cases query ua ma unicast) as [[He Hr] | [He Hr]];
      cbn beta zeta in He, Hr; rewrite Hr; split; intro H;
      congruence.
  - intros s query from w.
    destruct (Z.eq_dec (dns.Opcode (dns.Hdr query)) 0) as [Hop | Hop].
    2: { destruct (handleQuery_invalid s query from w (or_introl Hop)) as [e He].
         exists []. rewrite He, log_nil. simpl. repeat split; intros; contradiction. }
    destruct (Z.eq_dec (dns.Rcode (dns.Hdr query)) 0) as [Hrc | Hrc].
    2: { destruct (handleQuery_invalid s query from w (or_intror (or_introl Hrc)))
           as [e He].
         exists []. rewrite He, log_nil. simpl. repeat split; intros; contradiction. }
    destruct (dns.Truncated (dns.Hdr query)) eqn:Htc.
    1: { destruct (handleQuery_invalid s query from w (or_intror (or_intror Htc)))
           as [e He].
         exists []. rewrite He, log_nil. simpl. repeat split; intros; contradiction. }
    destruct (handleQuery_valid s query from w Hop Hrc Htc)
      as (evs & Heq & Hsends & _ & Hw & _ & _ & _).
    exists (map ZoneRecords (dns.Questions query) ++ evs).
    rewrite Heq. cbn [snd]. split; [ reflexivity | ].
    rewrite sends_app, sends_ZoneRecords, writes_app, writes_ZoneRecords.
    cbn [app]. split.
    + intros m a u Hin. rewrite Hsends in Hin.
      apply in_app_or in Hin as [Hin | Hin].
      * destruct (multicastAnswers _ _) eqn:Hma; [ contradiction | ].
        destruct Hin as [E | []]. inversion E; subst. simpl. discriminate.
      * destruct (match multicastAnswers _ _ with [] => None | _ :: _ => _ end);
          [ contradiction | ].
        destruct (unicastAnswers _ _) eqn:Hua; [ contradiction | ].
        destruct Hin as [E | []]. inversion E; subst. simpl. discriminate.
    + intros c buf addr ok Hin.
      destruct (Hw c buf addr ok Hin) as [[Hne HP] | [Hne HP]];
        eexists; (split; [ exact HP | exact Hne ]).
  - intros s w. apply announceOnce_nothing.
  - intros s w.
    destruct (announceOnce_writes s w) as (evs & Heq & Hs & Hw).
    exists evs. split; [ exact Heq | ]. split; [ exact Hs | ].
    intros c buf addr ok Hin. destruct (Hw c buf addr ok Hin) as [Hne HP].
    eexists. split; [ exact HP | exact Hne ].
Qed.

(** C8, as the code has it.  With both sockets, a non-empty announcement
    and a message that packs, [announceOnce] writes the packed message to
    the IPv4 group on the IPv4 socket first.  If that write fails the
    error is returned and nothing is written on the IPv6 socket; if it
    succeeds the message is written to the IPv6 group on the IPv6 socket,
    and the result of that write is the result of the call. *)
Theorem announceOnce_writes_v4_then_v6 :
  forall (s : Server) (w : World) (c4 c6 : net.UDPConn) (buf : list Z),
    ipv4List s = Some c4 ->
    ipv6List s = Some c6 ->
    Announcement (Config_Zone (config s)) <> [] ->
    Pack (announceMsg (Announcement (Config_Zone (config s)))) = Ok buf ->
    exists evs : list Event,
      snd (announceOnce Pack s w) = log evs w
      /\ match fst (conn_WriteToUDP c4 buf ipv4Addr w) with
         | Some e =>
             fst (announceOnce Pack s w) = Some e
             /\ writes evs = [(c4, buf, ipv4Addr, false)]
         | None =>
             fst (announceOnce Pack s w) = fst (conn_WriteToUDP c6 buf ipv6Addr w)
             /\ exists ok6 : bool,
                  (ok6 = true <-> fst (conn_WriteToUDP c6 buf ipv6Addr w) = None)
                  /\ writes evs = [(c4, buf, ipv4Addr, true); (c6, buf, ipv6Addr, ok6)]
         end.
Proof.
  intros s w c4 c6 buf H4 H6 Hne HP.
  rewrite (announceOnce_eq s w buf Hne HP), H4, H6.
  destruct (conn_WriteToUDP_log c4 buf ipv4Addr [] w)
    as (r4 & ok4 & _ & Hr4 & Hok4 & Hdead4).
  destruct (conn_WriteToUDP_log c6 buf ipv6Addr [] w)
    as (r6 & ok6 & _ & Hr6 & Hok6 & Hdead6).
  rewrite <- Hr4, <- Hr6, <- Hdead6.
  destruct (isClosed c4 w || refused w c4 ipv4Addr);
    cbn [negb] in Hdead4; subst ok4; eexists; (split; [ reflexivity | ]).
  - destruct r4 as [e | ].
    + split; reflexivity.
    + destruct Hok4 as [_ Hok4]. discriminate (Hok4 eq_refl).
  - destruct r4 as [e | ].
    + destruct Hok4 as [Hok4 _]. discriminate (Hok4 eq_refl).
    + split; [ reflexivity | ]. exists ok6. split; [ exact Hok6 | reflexivity ].
Qed.








End CodecFacts.

(** ** Shutdown *)

Lemma Shutdown_when_down (s : Server) (w : World) :
  shutdown s = true -> Shutdown s w = ((Returned None, s), w).
Proof. intro H. unfold Shutdown. now rewrite H. Qed.

Lemma Shutdown_times_when_down (n : nat) (s : Server) (w : World) :
  shutdown s = true ->
  Shutdown_times n s w = ((repeat (Returned None) n, s), w).
Proof.
  intro H. induction n as [ | n IH]; [ reflexivity | ].
  cbn [Shutdown_times]. unfold bind at 1. rewrite (Shutdown_when_down s w H).
  cbn [snd]. unfold bind at 1. rewrite IH. reflexivity.
Qed.

(** The first [Shutdown] of a server made by [NewServer]: the channel is
    closed, then each socket the server has, the IPv4 one first. *)
Lemma Shutdown_first (s : Server) (w : World) :
  shutdown s = false ->
  shutdownCh s = ChanOpen ->
  fst (Shutdown s w)
  = (Returned None, mkServer (config s) (ipv4List s) (ipv6List s) true ChanClosed)
  /\ events (snd (Shutdown s w))
     = events w ++ ChanClose :: map ConnClose (present s).
Proof.
  intros Hsd Hch. unfold Shutdown, present. rewrite Hsd, Hch.
  unfold bind, ret. rewrite emit_log.
  destruct (ipv4List s) as [c4 | ]; destruct (ipv6List s) as [c6 | ];
    cbn [fst snd]; (split; [ reflexivity | ]);
    unfold events, conn_Close, log; simpl;
    rewrite ?map_app, <- ?app_assoc; reflexivity.
Qed.

Lemma closed_conns_ConnClose (l : list net.UDPConn) :
  closed_conns (map ConnClose l) = l.
Proof. induction l; simpl; congruence. Qed.

Lemma no_ChanClose_among_ConnClose (l : list net.UDPConn) :
  filter (fun e => match e with ChanClose => true | _ => false end)
         (map ConnClose l) = [].
Proof. induction l; simpl; auto. Qed.

Lemma closes_present (s : Server) (c : net.UDPConn) :
  ipv4List s <> ipv6List s ->
  (closes c (ChanClose :: map ConnClose (present s)) <= 1)%nat.
Proof.
  intro Hdiff. unfold closes, present.
  destruct (ipv4List s) as [[fd4] | ]; destruct (ipv6List s) as [[fd6] | ];
    simpl; unfold net.conn_eqb; simpl;
    repeat match goal with
           | |- context [Z.eqb ?a ?b] => destruct (Z.eqb_spec a b)
           end; simpl; try lia.
  subst. congruence.
Qed.

(** C9.  On a server as [NewServer] makes it, and on a server that is shut
    down already, any number of calls of [Shutdown] one after the other
    return nil, every one of them; none panics.  Over all the calls
    [Close] is called at most once on the IPv4 socket and at most once on
    the IPv6 socket (exactly once, by the first call, on a server that was
    not shut down), the channel is closed at most once, and from the
    first call on the server is shut down. *)
Theorem Shutdown_idempotent :
  forall (s : Server) (w : World) (n : nat),
    server_inv s ->
    let r := Shutdown_times n s w in
    fst (fst r) = repeat (Returned None) n
    /\ (exists evs : list Event,
          events (snd r) = events w ++ evs
          /\ closed_conns evs
             = (if shutdown s || Nat.eqb n 0 then [] else present s)
          /\ (List.length (filter (fun e => match e with ChanClose => true | _ => false end) evs)
              <= 1)%nat
          /\ (ipv4List s <> ipv6List s ->
              forall c, (closes c evs <= 1)%nat))
    /\ ((0 < n)%nat -> shutdown (snd (fst r)) = true)
    /\ server_inv (snd (fst r)).
Proof.
  intros s w n Hinv r. subst r.
  destruct (shutdown s) eqn:Hsd.
  - (* shut down already *)
    rewrite (Shutdown_times_when_down n s w Hsd). cbn [fst snd orb].
    split; [ reflexivity | ]. split.
    + exists []. rewrite app_nil_r. repeat split; simpl; auto.
    + split; [ intros _; exact Hsd | exact Hinv ].
  - destruct n as [ | n].
    + (* no call *)
      cbn [Shutdown_times ret fst snd repeat Nat.eqb orb].
      split; [ reflexivity | ]. split.
      * exists []. rewrite app_nil_r. repeat split; simpl; auto.
      * split; [ intro H; inversion H | exact Hinv ].
    + (* the first call closes, the others return at once *)
      destruct (Shutdown_first s w Hsd (Hinv Hsd)) as [Hfst Hev].
      assert (Hrun : Shutdown_times (S n) s w
                     = ((repeat (Returned None) (S n),
                         mkServer (config s) (ipv4List s) (ipv6List s) true ChanClosed),
                        snd (Shutdown s w))).
      { cbn [Shutdown_times]. unfold bind at 1.
        destruct (Shutdown s w) as [[o s2] w1] eqn:E.
        cbn [fst snd] in Hfst |- *. inversion Hfst; subst o s2; clear Hfst.
        unfold bind at 1.
        rewrite Shutdown_times_when_down by reflexivity. reflexivity. }
      rewrite Hrun. cbn [fst snd Nat.eqb orb].
      split; [ reflexivity | ]. split.
      * exists (ChanClose :: map ConnClose (present s)).
        split; [ exact Hev | ]. split; [ | split ].
        -- simpl. apply closed_conns_ConnClose.
        -- cbn [filter]. rewrite no_ChanClose_among_ConnClose. simpl. lia.
        -- intros Hdiff c. now apply closes_present.
      * split; [ reflexivity | intro H; discriminate H ].
Qed.

(** [NewServer] returns servers that satisfy [server_inv], are not shut
    down and have at least one socket. *)
Lemma NewServer_server_inv (cfg : Config) (listen4 listen6 : option net.UDPConn)
    (loopback4 loopback6 : option error) (w : World) (s : Server) (a : Announcing) :
  fst (NewServer cfg listen4 listen6 loopback4 loopback6 w) = Ok (s, a) ->
  server_inv s /\ shutdown s = false
  /\ (ipv4List s <> None \/ ipv6List s <> None).
Proof.
  unfold NewServer, server_inv.
  destruct loopback4, loopback6, listen4, listen6; simpl; intro H;
    inversion H; subst; simpl; repeat split; auto;
    solve [ left; discriminate | right; discriminate ].
Qed.

(** ** The model at work on the sample data *)

Example To4_of_the_IPv4_group :
  net.To4 (net.addrIP ipv4Addr) = Some [224; 0; 0; 251].
Proof. reflexivity. Qed.

Example To4_of_the_IPv6_group : net.To4 (net.addrIP ipv6Addr) = None.
Proof. reflexivity. Qed.

(** A question for foo.local. of class IN: one multicast response with the
    record, id 0, written to 224.0.0.251:5353. *)
Example query_answered_by_multicast :
  handleQuery exPack exServer (exQuery [exQuestion 1]) exFrom exWorld
  = (None,
     log [ZoneRecords (exQuestion 1);
          SendResponse (responseMsg 0 [exRR]) exFrom false;
          WriteToUDP exConn4 [0; 1] ipv4Addr true] exWorld).
Proof. reflexivity. Qed.

(** The same question with the unicast bit: one unicast response with the
    query's id, written to the sender. *)
Example query_answered_by_unicast :
  handleQuery exPack exServer (exQuery [exQuestion 32769]) exFrom exWorld
  = (None,
     log [ZoneRecords (exQuestion 32769);
          SendResponse (responseMsg 4660 [exRR]) exFrom true;
          WriteToUDP exConn4 [4660; 1] exFrom true] exWorld).
Proof. reflexivity. Qed.

(** A query from an IPv6 address to a server without an IPv6 socket. *)
Example query_without_socket :
  handleQuery exPack exServer4 (exQuery [exQuestion 1]) exFrom6 exWorld
  = (Some (ErrMulticastSend ErrMissingConn),
     log [ZoneRecords (exQuestion 1);
          SendResponse (responseMsg 0 [exRR]) exFrom6 false] exWorld).
Proof. reflexivity. Qed.

(** A Zone with nothing to announce is asked twice and nothing is written. *)
Example announce_nothing :
  option_map (fun st => events (snd st))
    (run exPack (mkServer (mkConfig exEmptyZone None false)
                   (Some exConn4) (Some exConn6) false ChanOpen)
       [RunGoroutine; Elapse (time.Second * 2); FireTimer]
       (Announce exServer exWorld))
  = Some [ZoneAnnouncement; ZoneAnnouncement].
Proof. reflexivity. Qed.

(** Three calls of [Shutdown]: the channel and each socket closed once. *)
Example shutdown_three_times :
  events (snd (Shutdown_times 3 exServer exWorld))
  = [ChanClose; ConnClose exConn4; ConnClose exConn6].
Proof. reflexivity. Qed.

(** ** The theorems at work on the sample data *)

Lemma handleQuestion_routes_witness :
  snd (fst (handleQuestion exServer (exQuestion 32769) exWorld))
  = Records (Config_Zone (config exServer)) (exQuestion 32769)
  /\ fst (fst (handleQuestion exServer (exQuestion 32769) exWorld)) = [].
Proof.
  exact (proj1 (handleQuestion_routes_all_or_nothing
                  exServer (exQuestion 32769) exWorld) eq_refl).
Defined.

Lemma handleQuery_one_response_witness :
  exists evs : list Event,
    snd (handleQuery exPack exServer (exQuery [exQuestion 32769]) exFrom exWorld)
    = log evs exWorld
    /\ sends evs
       = [(dns.mkMsg
             (dns.mkMsgHdr 4660 true 0 true false false false false false false 0)
             true [] [exRR] [] [],
           exFrom, true)]
    /\ writes evs = [(exConn4, [4660; 1], exFrom, true)].
Proof.
  destruct (handleQuery_one_matching_question_one_response
              exPack exServer (exQuery [exQuestion 32769]) exFrom exWorld
              [] [] (exQuestion 32769))
    as (evs & Hlog & Hsends & _ & Hwire).
  - reflexivity.
  - reflexivity.
  - reflexivity.
  - reflexivity.
  - simpl. discriminate.
  - simpl. intros q' H. destruct H.
  - exists evs. split; [ exact Hlog | ]. split; [ exact Hsends | ].
    exact (proj2 (Hwire [4660; 1] exConn4 eq_refl eq_refl eq_refl)).
Defined.

Lemma handleQuery_rejects_witness :
  exists err : error,
    fst (handleQuery exPack exServer
           (dns.mkMsg
              (dns.mkMsgHdr 7 false 0 false true false false false false false 0)
              false [exQuestion 1] [] [] [])
           exFrom exWorld) = Some err.
Proof.
  destruct (handleQuery_rejects_without_effect exPack exServer
              (dns.mkMsg
                 (dns.mkMsgHdr 7 false 0 false true false false false false false 0)
                 false [exQuestion 1] [] [] [])
              exFrom exWorld)
    as (err & Herr & _).
  - right. right. reflexivity.
  - exists err. exact Herr.
Defined.

Lemma handleQuery_silent_witness :
  handleQuery exPack exServer
    (exQuery [dns.mkQuestion "bar.local." 1 1; dns.mkQuestion "baz.local." 12 32769])
    exFrom exWorld
  = (None,
     log [ZoneRecords (dns.mkQuestion "bar.local." 1 1);
          ZoneRecords (dns.mkQuestion "baz.local." 12 32769)] exWorld).
Proof.
  apply (handleQuery_no_records_is_silent exPack exServer
           (exQuery [dns.mkQuestion "bar.local." 1 1;
                     dns.mkQuestion "baz.local." 12 32769])
           exFrom exWorld).
  - reflexivity.
  - reflexivity.
  - reflexivity.
  - simpl. intros q [H | [H | H]].
    + subst q. reflexivity.
    + subst q. reflexivity.
    + destruct H.
Defined.

Lemma handleQuery_both_answers_witness :
  exists evs : list Event,
    snd (handleQuery exPack exServer
           (exQuery [exQuestion 1; exQuestion 32769]) exFrom exWorld)
    = log evs exWorld
    /\ sends evs
       = [(responseMsg 0 [exRR], exFrom, false);
          (responseMsg 4660 [exRR], exFrom, true)].
Proof.
  destruct (handleQuery_multicast_failure_ends_the_call exPack exServer
              (exQuery [exQuestion 1; exQuestion 32769]) exFrom exWorld
              eq_refl eq_refl eq_refl)
    as (evs & Hlog & Hcase).
  - simpl. discriminate.
  - simpl. discriminate.
  - exists evs. split; [ exact Hlog | ].
    exact (proj2 Hcase).
Defined.

Lemma announceOnce_both_sockets_witness :
  exists evs : list Event,
    snd (announceOnce exPack exServer exWorld) = log evs exWorld
    /\ exists ok6 : bool,
         writes evs = [(exConn4, [0; 1], ipv4Addr, true);
                       (exConn6, [0; 1], ipv6Addr, ok6)].
Proof.
  destruct (announceOnce_writes_v4_then_v6 exPack exServer exWorld
              exConn4 exConn6 [0; 1] eq_refl eq_refl)
    as (evs & Hlog & Hcase).
  - simpl. discriminate.
  - reflexivity.
  - exists evs. split; [ exact Hlog | ].
    destruct (proj2 Hcase) as (ok6 & _ & Hw). exists ok6. exact Hw.
Defined.


Lemma Shutdown_idempotent_witness :
  fst (fst (Shutdown_times 3 exServer exWorld)) = repeat (Returned None) 3
  /\ closed_conns (events (snd (Shutdown_times 3 exServer exWorld)))
     = [exConn4; exConn6].
Proof.
  destruct (Shutdown_idempotent exServer exWorld 3)
    as (Hres & (evs & Hev & Hclosed & _) & _).
  - intro H. reflexivity.
  - split; [ exact Hres | ].
    rewrite Hev. exact Hclosed.
Defined.

(** ** Where the code departs from the wording of the specification *)

(** C5 fails as stated: for a question of class IN with the unicast bit
    set (class field 0x8001) the question put to the Zone still has bit 15
    of its class set. *)
Lemma handleQuestion_passes_top_bit_to_Zone :
  exists q' : dns.Question,
    In q' (asked (events (snd (handleQuestion exServer (exQuestion 32769) exWorld))))
    /\ dns.Qclass q' = 32769
    /\ Z.testbit (dns.Qclass q') 15 = true.
Proof.
  exists (exQuestion 32769). split; [ left; reflexivity | split; reflexivity ].
Qed.

(** C6 fails as stated: a query with one multicast and one unicast
    question arrives from 192.168.1.20 while there is no route to the
    multicast group.  The multicast send fails, [handleQuery] returns that
    error, and the unicast response, whose send would have gone through,
    is never handed to [sendResponse]. *)
Lemma handleQuery_multicast_failure_suppresses_unicast :
  let query := exQuery [exQuestion 1; exQuestion 32769] in
  let r := handleQuery exPack exServer query exFrom exWorldNoGroup in
  multicastAnswers exZone (dns.Questions query) <> []
  /\ unicastAnswers exZone (dns.Questions query) <> []
  /\ fst r = Some (ErrMulticastSend (ErrExternal "sendto failed"))
  /\ fst (sendResponse exPack exServer (responseMsg 4660 [exRR]) exFrom true
            exWorldNoGroup) = None
  /\ sends (events (snd r)) = [(responseMsg 0 [exRR], exFrom, false)]
  /\ ~ (exists m, In (m, exFrom, true) (sends (events (snd r)))).
Proof.
  cbv zeta. repeat split; try (vm_compute; discriminate); try reflexivity.
  intros [m Hin]. vm_compute in Hin.
  destruct Hin as [Hin | []]. discriminate Hin.
Qed.


(** C8 fails as stated: with both sockets present and the kernel refusing
    the datagrams on the IPv4 socket, [announceOnce] returns the error of
    the IPv4 write and writes nothing on the IPv6 socket. *)
Lemma announceOnce_v4_failure_skips_v6 :
  let r := announceOnce exPack exServer exWorldDown4 in
  ipv4List exServer = Some exConn4
  /\ ipv6List exServer = Some exConn6
  /\ fst r = Some (ErrExternal "sendto failed")
  /\ writes (events (snd r)) = [(exConn4, [0; 1], ipv4Addr, false)]
  /\ ~ (exists buf addr ok, In (exConn6, buf, addr, ok) (writes (events (snd r)))).
Proof.
  cbv zeta. repeat split; try reflexivity.
  intros (buf & addr & ok & Hin). vm_compute in Hin.
  destruct Hin as [Hin | []]. discriminate Hin.
Qed.

(** ** More of [server.go]: the query path *)

Lemma asked_of_ZoneRecords (qs : list dns.Question) : asked (map ZoneRecords qs) = qs.
Proof. induction qs; simpl; congruence. Qed.


Lemma answers_permutation (z : Zone) (qs : list dns.Question) :
  Permutation (unicastAnswers z qs ++ multicastAnswers z qs)
              (flat_map (Records z) qs).
Proof.
  unfold multicastAnswers, unicastAnswers, routed.
  induction qs as [ | q qs IH]; [ constructor | ].
  cbn [flat_map]. destruct (wantsUnicast q); cbn [fst snd app].
  - rewrite <- app_assoc. now apply Permutation_app_head.
  - etransitivity; [ apply Permutation_app_swap_app | ].
    now apply Permutation_app_head.
Qed.

Section Coverage.

Variable Pack : dns.Msg -> Result (list Z).
Variable Unpack : list Z -> Result dns.Msg.

Lemma conn_WriteToUDP_result (c : net.UDPConn) (buf : list Z)
    (addr : net.UDPAddr) (w : World) :
  (fst (conn_WriteToUDP c buf addr w) = None <-> writable w (Some c) addr = true)
  /\ conn_WriteToUDP c buf addr w
     = (fst (conn_WriteToUDP c buf addr w),
        log [WriteToUDP c buf addr (writable w (Some c) addr)] w).
Proof.
  unfold conn_WriteToUDP, writable, bind, ret.
  destruct (isClosed c w); [ | destruct (refused w c addr) ];
    rewrite !emit_log; cbn [fst orb negb]; split; try reflexivity;
    split; congruence.
Qed.

Lemma sendResponse_result (s : Server) (m : dns.Msg) (from : net.UDPAddr)
    (u : bool) (w : World) :
  fst (sendResponse Pack s m from u w)
  = match Pack m with
    | Fail e => Some e
    | Ok buf =>
        match connFor s from with
        | None => Some ErrMissingConn
        | Some c => fst (conn_WriteToUDP c buf (destFor from u) w)
        end
    end.
Proof.
  unfold sendResponse, bind, ret. rewrite emit_log.
  fold (connFor s from). fold (destFor from u).
  destruct (Pack m) as [buf | e]; [ | reflexivity ].
  destruct (connFor s from) as [c | ]; [ | reflexivity ].
  destruct (conn_WriteToUDP_log c buf (destFor from u) [SendResponse m from u] w)
    as (r & ok & Heq & Hr & _ & _).
  rewrite Heq. cbn [fst]. exact Hr.
Qed.

(** The whole effect of [handleQuery] on a query that passes the checks. *)
Lemma handleQuery_trace (s : Server) (query : dns.Msg) (from : net.UDPAddr)
    (w : World) :
  dns.Opcode (dns.Hdr query) = 0 ->
  dns.Rcode (dns.Hdr query) = 0 ->
  dns.Truncated (dns.Hdr query) = false ->
  handleQuery Pack s query from w
  = (match multicastFailure Pack s w query from with
     | Some e => Some (ErrMulticastSend e)
     | None =>
         match unicastAnswers (Config_Zone (config s)) (dns.Questions query) with
         | [] => None
         | _ :: _ =>
             option_map ErrUnicastSend
               (fst (sendResponse Pack s (unicastResponse s query) from true w))
         end
     end,
     log (map ZoneRecords (dns.Questions query)
          ++ responseEvents Pack s w query from) w).
Proof.
  intros Hop Hrc Htc.
  unfold responseEvents, multicastFailure, multicastResponse, unicastResponse.
  set (z := Config_Zone (config s)). set (qs := dns.Questions query).
  set (ma := multicastAnswers z qs). set (ua := unicastAnswers z qs).
  set (mresp := responseMsg 0 ma).
  set (uresp := responseMsg (dns.Id (dns.Hdr query)) ua).
  unfold handleQuery. rewrite Hop, Hrc, Htc. cbn [negb Z.eqb dns.OpcodeQuery].
  unfold bind at 1. rewrite rangeQuestions_eq. cbn [fst snd app].
  fold z qs ma ua. unfold sendEvents.
  destruct (resp_cases query ua ma false) as [[Hm Hr] | [Hm Hr]];
    destruct (resp_cases query ua ma true) as [[Hu Hr'] | [Hu Hr']];
    cbn beta iota zeta in Hm, Hu, Hr, Hr'; rewrite Hr, ?Hr'; fold mresp uresp.
  - rewrite Hm, Hu. cbn [app]. now rewrite app_nil_r.
  - unfold bind. rewrite (sendResponse_log Pack s uresp from true). rewrite Hm.
    destruct ua as [ | r ua']; [ congruence | ]. cbn [app].
    destruct (fst (sendResponse Pack s uresp from true w)); reflexivity.
  - unfold bind. rewrite (sendResponse_log Pack s mresp from false). rewrite Hu.
    destruct ma as [ | r ma']; [ congruence | ].
    destruct (fst (sendResponse Pack s mresp from false w));
      now rewrite app_nil_r.
  - unfold bind. rewrite (sendResponse_log Pack s mresp from false).
    destruct ma as [ | r ma']; [ congruence | ].
    destruct ua as [ | r' ua']; [ congruence | ].
    destruct (fst (sendResponse Pack s mresp from false w)) as [e | ].
    + now rewrite app_nil_r.
    + rewrite (sendResponse_log Pack s uresp from true).
      rewrite <- !app_assoc. cbn [app].
      destruct (fst (sendResponse Pack s uresp from true w)); reflexivity.
Qed.

(** The shapes [responseEvents] can take. *)
Lemma responseEvents_cases (s : Server) (w : World) (query : dns.Msg)
    (from : net.UDPAddr) :
  let ma := multicastAnswers (Config_Zone (config s)) (dns.Questions query) in
  let ua := unicastAnswers (Config_Zone (config s)) (dns.Questions query) in
  let msend := sendEvents Pack s w (multicastResponse s query) from false in
  let usend := sendEvents Pack s w (unicastResponse s query) from true in
  let R := responseEvents Pack s w query from in
  (ma = [] /\ ua = [] /\ R = [])
  \/ (ma = [] /\ ua <> [] /\ R = usend)
  \/ (ma <> [] /\ R = msend
      /\ (ua = []
          \/ fst (sendResponse Pack s (multicastResponse s query) from false w) <> None))
  \/ (ma <> [] /\ ua <> [] /\ R = msend ++ usend
      /\ fst (sendResponse Pack s (multicastResponse s query) from false w) = None).
Proof.
  unfold responseEvents, multicastFailure. cbv zeta.
  destruct (multicastAnswers _ _) as [ | r ma];
    destruct (unicastAnswers _ _) as [ | r' ua]; cbn [app].
  - left. auto.
  - right. left. repeat split; auto. discriminate.
  - right. right. left. split; [ discriminate | ].
    split; [ | now left ].
    destruct (fst (sendResponse Pack s (multicastResponse s query) from false w));
      now rewrite app_nil_r.
  - destruct (fst (sendResponse Pack s (multicastResponse s query) from false w))
      as [e | ] eqn:Hf.
    + right. right. left. split; [ discriminate | ].
      split; [ now rewrite app_nil_r | right; discriminate ].
    + right. right. right. repeat split; auto; discriminate.
Qed.

Lemma sendEvents_facts (s : Server) (w : World) (m : dns.Msg)
    (from : net.UDPAddr) (u : bool) :
  sends (sendEvents Pack s w m from u) = [(m, from, u)]
  /\ asked (sendEvents Pack s w m from u) = []
  /\ writes (sendEvents Pack s w m from u) = writes (writeEvents Pack s w m from u).
Proof.
  destruct (writeEvents_facts Pack s w m from u) as (Hs & Ha & _).
  unfold sendEvents. simpl. now rewrite Hs, Ha.
Qed.

Lemma query_valid_dec (query : dns.Msg) :
  (dns.Opcode (dns.Hdr query) = 0
   /\ dns.Rcode (dns.Hdr query) = 0
   /\ dns.Truncated (dns.Hdr query) = false)
  \/ (dns.Opcode (dns.Hdr query) <> 0
      \/ dns.Rcode (dns.Hdr query) <> 0
      \/ dns.Truncated (dns.Hdr query) = true).
Proof.
  destruct (Z.eq_dec (dns.Opcode (dns.Hdr query)) 0);
    destruct (Z.eq_dec (dns.Rcode (dns.Hdr query)) 0);
    destruct (dns.Truncated (dns.Hdr query)); auto.
Qed.

(** What the result of [sendResponse] says about the write. *)
Lemma sendResponse_written (s : Server) (m : dns.Msg) (from : net.UDPAddr)
    (u : bool) (w : World) :
  match fst (sendResponse Pack s m from u w) with
  | None =>
      exists c buf,
        Pack m = Ok buf /\ connFor s from = Some c
        /\ writes (sendEvents Pack s w m from u) = [(c, buf, destFor from u, true)]
  | Some _ => Forall failedWrite (writes (sendEvents Pack s w m from u))
  end.
Proof.
  rewrite sendResponse_result.
  destruct (sendEvents_facts s w m from u) as (_ & _ & Hw). rewrite Hw.
  unfold writeEvents.
  destruct (Pack m) as [buf | e]; [ | constructor ].
  destruct (connFor s from) as [c | ]; [ | constructor ].
  destruct (conn_WriteToUDP_result c buf (destFor from u) w) as [Hiff _].
  destruct (fst (conn_WriteToUDP c buf (destFor from u) w)) as [e | ].
  - destruct (writable w (Some c) (destFor from u)) eqn:Hwr.
    + destruct Hiff as [_ Hiff]. discriminate (Hiff eq_refl).
    + simpl. repeat constructor.
  - destruct Hiff as [Hiff _]. rewrite (Hiff eq_refl).
    exists c, buf. repeat split; reflexivity.
Qed.

Lemma sendEvents_writes_length (s : Server) (w : World) (m : dns.Msg)
    (from : net.UDPAddr) (u : bool) :
  (List.length (writes (sendEvents Pack s w m from u)) <= 1)%nat.
Proof.
  destruct (sendEvents_facts s w m from u) as (_ & _ & ->).
  now destruct (writeEvents_facts Pack s w m from u) as (_ & _ & Hl & _).
Qed.

Lemma responseEvents_facts (s : Server) (w : World) (query : dns.Msg)
    (from : net.UDPAddr) :
  let R := responseEvents Pack s w query from in
  asked R = []
  /\ (sends R = []
      \/ sends R = [(unicastResponse s query, from, true)]
      \/ sends R = [(multicastResponse s query, from, false)]
      \/ sends R = [(multicastResponse s query, from, false);
                    (unicastResponse s query, from, true)])
  /\ (List.length (writes R) <= List.length (sends R))%nat
  /\ (In (multicastResponse s query, from, false) (sends R) ->
      multicastAnswers (Config_Zone (config s)) (dns.Questions query) <> [])
  /\ (In (unicastResponse s query, from, true) (sends R) ->
      unicastAnswers (Config_Zone (config s)) (dns.Questions query) <> []).
Proof.
  cbv zeta.
  pose proof (sendEvents_facts s w (multicastResponse s query) from false)
    as (Hsm & Ham & _).
  pose proof (sendEvents_facts s w (unicastResponse s query) from true)
    as (Hsu & Hau & _).
  pose proof (sendEvents_writes_length s w (multicastResponse s query) from false)
    as Hlm.
  pose proof (sendEvents_writes_length s w (unicastResponse s query) from true)
    as Hlu.
  destruct (responseEvents_cases s w query from)
    as [(Hm & Hu & ->) | [(Hm & Hu & ->) | [(Hm & -> & _) | (Hm & Hu & -> & _)]]].
  - simpl. split; [ reflexivity | ]. split; [ now left | ].
    split; [ lia | ]. split; intros [].
  - rewrite Hsu, Hau. split; [ reflexivity | ]. split; [ right; now left | ].
    split; [ exact Hlu | ]. split; [ | intros _; exact Hu ].
    intros [E | []]. discriminate E.
  - rewrite Hsm, Ham. split; [ reflexivity | ].
    split; [ right; right; now left | ].
    split; [ exact Hlm | ]. split; [ intros _; exact Hm | ].
    intros [E | []]. discriminate E.
  - rewrite sends_app, asked_app, writes_app, length_app, Hsm, Ham, Hsu, Hau.
    split; [ reflexivity | ]. split; [ right; right; now right | ].
    split; [ cbn [app List.length]; lia | ]. split; intros _; assumption.
Qed.

(** X1.  For a query that passes the checks the Zone is asked every
    question of the query once, in the order of the query and before
    anything is sent, whether the sends that follow fail or not. *)
Theorem handleQuery_asks_every_question_first :
  forall (s : Server) (query : dns.Msg) (from : net.UDPAddr) (w : World),
    dns.Opcode (dns.Hdr query) = 0 ->
    dns.Rcode (dns.Hdr query) = 0 ->
    dns.Truncated (dns.Hdr query) = false ->
    exists evs : list Event,
      snd (handleQuery Pack s query from w)
      = log (map ZoneRecords (dns.Questions query) ++ evs) w
      /\ asked evs = []
      /\ asked (events (snd (handleQuery Pack s query from w)))
         = asked (events w) ++ dns.Questions query.
Proof.
  intros s query from w Hop Hrc Htc.
  rewrite (handleQuery_trace s query from w Hop Hrc Htc). cbn [snd].
  destruct (responseEvents_facts s w query from) as (Ha & _).
  exists (responseEvents Pack s w query from).
  split; [ reflexivity | ]. split; [ exact Ha | ].
  now rewrite events_log, !asked_app, asked_of_ZoneRecords, Ha, app_nil_r.
Qed.


(** X3.  The loop over the questions loses and invents no record: the
    unicast and the multicast answer it returns hold, between them, exactly
    the records the Zone returned for the questions, each as often as it
    was returned. *)
Theorem rangeQuestions_keeps_every_record :
  forall (s : Server) (qs : list dns.Question) (w : World),
    Permutation
      (fst (fst (rangeQuestions s qs [] [] w))
       ++ snd (fst (rangeQuestions s qs [] [] w)))
      (flat_map (Records (Config_Zone (config s))) qs).
Proof.
  intros s qs w. rewrite rangeQuestions_eq. cbn [fst snd app].
  apply answers_permutation.
Qed.



(** X6.  The error [handleQuery] returns tells what went wrong, the
    checks being made in the order opcode, response code, truncated flag:
    an opcode error carries the (non-zero) opcode; a response-code error
    means the opcode was 0; a truncated-query error means both were 0; a
    multicast or a unicast send error means the query passed all three
    checks and carries the error of the send; no other error is returned. *)
Theorem handleQuery_error_tells_the_cause :
  forall (s : Server) (query : dns.Msg) (from : net.UDPAddr) (w : World),
    match fst (handleQuery Pack s query from w) with
    | None => True
    | Some (ErrOpcode o) => o = dns.Opcode (dns.Hdr query) /\ o <> 0
    | Some (ErrRcode r) =>
        dns.Opcode (dns.Hdr query) = 0 /\ r = dns.Rcode (dns.Hdr query) /\ r <> 0
    | Some ErrTruncatedUnsupported =>
        dns.Opcode (dns.Hdr query) = 0 /\ dns.Rcode (dns.Hdr query) = 0
        /\ dns.Truncated (dns.Hdr query) = true
    | Some (ErrMulticastSend e) =>
        dns.Opcode (dns.Hdr query) = 0 /\ dns.Rcode (dns.Hdr query) = 0
        /\ dns.Truncated (dns.Hdr query) = false
        /\ fst (sendResponse Pack s (multicastResponse s query) from false w) = Some e
    | Some (ErrUnicastSend e) =>
        dns.Opcode (dns.Hdr query) = 0 /\ dns.Rcode (dns.Hdr query) = 0
        /\ dns.Truncated (dns.Hdr query) = false
        /\ fst (sendResponse Pack s (unicastResponse s query) from true w) = Some e
    | Some _ => False
    end.
Proof.
  intros s query from w.
  destruct (query_valid_dec query) as [(Hop & Hrc & Htc) | Hbad].
  - rewrite (handleQuery_trace s query from w Hop Hrc Htc). cbn [fst].
    unfold multicastFailure.
    destruct (multicastAnswers _ _).
    + destruct (unicastAnswers _ _); [ exact I | ].
      destruct (fst (sendResponse Pack s (unicastResponse s query) from true w));
        cbn [option_map]; auto.
    + destruct (fst (sendResponse Pack s (multicastResponse s query) from false w));
        [ auto | ].
      destruct (unicastAnswers _ _); [ exact I | ].
      destruct (fst (sendResponse Pack s (unicastResponse s query) from true w));
        cbn [option_map]; auto.
  - unfold handleQuery, dns.OpcodeQuery.
    destruct (Z.eqb_spec (dns.Opcode (dns.Hdr query)) 0) as [Hop | Hop];
      cbn [negb fst ret]; [ | auto ].
    destruct (Z.eqb_spec (dns.Rcode (dns.Hdr query)) 0) as [Hrc | Hrc];
      cbn [negb fst ret]; [ | auto ].
    destruct (dns.Truncated (dns.Hdr query)) eqn:Htc; cbn [fst ret]; [ auto | ].
    destruct Hbad as [H | [H | H]]; [ contradiction | contradiction | discriminate ].
Qed.

(** X7.  [sendResponse] keeps to the address family of the sender: what
    it writes is the packed message, on the IPv4 socket for a sender with
    an IPv4 address and on the IPv6 socket otherwise, and to the sender
    itself (unicast) or to the multicast group of the sender's family,
    224.0.0.251 or ff02::fb, port 5353 (multicast); a datagram never goes
    to an address of the other family. *)
Theorem sendResponse_keeps_to_the_family :
  forall (s : Server) (m : dns.Msg) (from : net.UDPAddr) (u : bool) (w : World),
    exists evs : list Event,
      snd (sendResponse Pack s m from u w) = log evs w
      /\ forall c buf addr ok,
           In (c, buf, addr, ok) (writes evs) ->
           Pack m = Ok buf
           /\ (if isIPv4 from then ipv4List s else ipv6List s) = Some c
           /\ addr = (if u then from
                      else if isIPv4 from then ipv4Addr else ipv6Addr)
           /\ isIPv4 addr = isIPv4 from
           /\ (u = false -> net.Port addr = 5353).
Proof.
  intros s m from u w.
  pose proof (sendResponse_log Pack s m from u [] w) as Heq.
  rewrite log_nil in Heq. rewrite Heq. cbn [snd app].
  eexists. split; [ reflexivity | ].
  intros c buf addr ok Hin. simpl in Hin.
  unfold writeEvents, connFor, destFor, isIPv4 in *.
  destruct (Pack m) as [buf' | e]; [ | destruct Hin ].
  destruct (net.To4 (net.addrIP from)) eqn:H4.
  - destruct (ipv4List s) as [c' | ]; [ | destruct Hin ].
    destruct Hin as [E | []]. inversion E; subst. clear E.
    destruct u; cbn [negb]; rewrite ?H4; repeat split; auto; discriminate.
  - destruct (ipv6List s) as [c' | ]; [ | destruct Hin ].
    destruct Hin as [E | []]. inversion E; subst. clear E.
    destruct u; cbn [negb]; rewrite ?H4; repeat split; auto; discriminate.
Qed.

(** X8.  [sendResponse] returns nil exactly when it has written the packed
    message and the write went through.  When it returns an error no
    datagram went out: nothing is written if the message does not pack or
    the socket for the sender's family is missing, and a write that was
    made failed. *)
Theorem sendResponse_nil_iff_written :
  forall (s : Server) (m : dns.Msg) (from : net.UDPAddr) (u : bool) (w : World),
    exists evs : list Event,
      snd (sendResponse Pack s m from u w) = log evs w
      /\ sends evs = [(m, from, u)]
      /\ (fst (sendResponse Pack s m from u w) = None
          <-> exists c buf addr, writes evs = [(c, buf, addr, true)])
      /\ (fst (sendResponse Pack s m from u w) <> None ->
          Forall failedWrite (writes evs))
      /\ ((exists e, Pack m = Fail e)
          \/ (if isIPv4 from then ipv4List s else ipv6List s) = None ->
          writes evs = []).
Proof.
  intros s m from u w.
  pose proof (sendResponse_log Pack s m from u [] w) as Heq.
  rewrite log_nil in Heq. rewrite Heq. cbn [snd app fst].
  fold (sendEvents Pack s w m from u).
  exists (sendEvents Pack s w m from u).
  destruct (sendEvents_facts s w m from u) as (Hs & _ & Hw).
  pose proof (sendResponse_written s m from u w) as Hwr.
  split; [ reflexivity | ]. split; [ exact Hs | ].
  destruct (fst (sendResponse Pack s m from u w)) as [e | ].
  - split; [ | split ].
    + split; [ discriminate | ].
      intros (c & buf & addr & E). rewrite E in Hwr.
      inversion Hwr as [ | x l Hx _]; subst. discriminate Hx.
    + intros _. exact Hwr.
    + rewrite Hw. unfold writeEvents, connFor, isIPv4.
      intros [[e' HP] | Hc]; [ now rewrite HP | ].
      destruct (Pack m); [ | reflexivity ].
      destruct (net.To4 (net.addrIP from)); now rewrite Hc.
  - destruct Hwr as (c & buf & HP & Hc & E).
    split; [ | split ].
    + split; [ intros _; now exists c, buf, (destFor from u) | reflexivity ].
    + intros H. now contradiction H.
    + unfold connFor, isIPv4 in *.
      intros [[e' HP'] | Hc']; [ congruence | ].
      destruct (net.To4 (net.addrIP from)); congruence.
Qed.

(** ** More of [server.go]: packets and the receive loop *)

(** X9.  A packet that does not decode is dropped by [parsePacket]: the
    decoder's error is returned and one line is logged; the Zone is not
    asked and nothing is sent or written. *)
Theorem parsePacket_drops_malformed_packet :
  forall (s : Server) (packet : list Z) (from : net.UDPAddr) (w : World)
         (err : error),
    Unpack packet = Fail err ->
    fst (parsePacket Pack Unpack s packet from w) = Some err
    /\ exists evs : list Event,
         snd (parsePacket Pack Unpack s packet from w) = log evs w
         /\ List.length (logged evs) = 1%nat
         /\ asked evs = [] /\ sends evs = [] /\ writes evs = [].
Proof.
  intros s packet from w err HU. unfold parsePacket. rewrite HU.
  unfold bind, ret. rewrite emit_log. cbn [fst snd].
  split; [ reflexivity | ].
  eexists. split; [ reflexivity | ]. simpl. auto.
Qed.

Lemma recv_loop_down (s : Server) (reads : list ReadResult) (w : World) :
  shutdown s = true -> recv_loop Pack Unpack s reads w = (tt, w).
Proof. intro H. destruct reads; cbn [recv_loop]; now rewrite H. Qed.

Lemma recv_loop_app (s : Server) (reads1 reads2 : list ReadResult) :
  forall w : World,
    recv_loop Pack Unpack s (reads1 ++ reads2) w
    = recv_loop Pack Unpack s reads2 (snd (recv_loop Pack Unpack s reads1 w)).
Proof.
  destruct (shutdown s) eqn:Hsd.
  - intro w. now rewrite !recv_loop_down.
  - induction reads1 as [ | r reads1 IH]; intro w.
    + cbn [app recv_loop]. now rewrite Hsd.
    + cbn [app recv_loop]. rewrite Hsd.
      destruct r as [e | payload from]; [ apply IH | ].
      unfold bind.
      destruct (parsePacket Pack Unpack s (firstn (Z.to_nat 65536) payload) from w)
        as [[e | ] w1];
        [ destruct (emit (LogPrintf "[ERR] mdns: Failed to handle query") w1)
            as [[] w2]
        | cbn [ret] ];
        apply IH.
Qed.

Lemma recv_loop_skips_errors (s : Server) (reads : list ReadResult) :
  forall w : World,
    recv_loop Pack Unpack s reads w
    = recv_loop Pack Unpack s (filter isDatagram reads) w.
Proof.
  destruct (shutdown s) eqn:Hsd.
  - intro w. now rewrite !recv_loop_down.
  - induction reads as [ | r reads IH]; intro w; [ reflexivity | ].
    destruct r as [e | payload from]; cbn [filter isDatagram recv_loop];
      rewrite Hsd; [ rewrite IH; clear IH | ].
    + destruct (filter isDatagram reads); cbn [recv_loop]; now rewrite Hsd.
    + unfold bind.
      destruct (parsePacket Pack Unpack s (firstn (Z.to_nat 65536) payload) from w)
        as [[e | ] w1];
        [ destruct (emit (LogPrintf "[ERR] mdns: Failed to handle query") w1)
            as [[] w2]
        | cbn [ret] ];
        apply IH.
Qed.

(** X10.  [recv] does nothing at all, whatever arrives, for the address
    family whose socket is missing (a nil connection) and on a server that
    is shut down. *)
Theorem recv_inert_without_socket_or_after_shutdown :
  forall (s : Server) (c : option net.UDPConn) (reads : list ReadResult) (w : World),
    c = None \/ shutdown s = true ->
    recv Pack Unpack s c reads w = (tt, w).
Proof.
  intros s c reads w [-> | Hsd]; [ reflexivity | ].
  destruct c; [ | reflexivity ]. cbn [recv]. now apply recv_loop_down.
Qed.

(** X11.  The receive loop handles the datagrams one after the other,
    each in the world the ones before it have left: receiving two batches
    of reads in a row is receiving the first batch and then the second. *)
Theorem recv_handles_reads_in_sequence :
  forall (s : Server) (c : option net.UDPConn) (reads1 reads2 : list ReadResult)
         (w : World),
    recv Pack Unpack s c (reads1 ++ reads2) w
    = recv Pack Unpack s c reads2 (snd (recv Pack Unpack s c reads1 w)).
Proof.
  intros s c reads1 reads2 w. destruct c; [ | reflexivity ].
  cbn [recv]. apply recv_loop_app.
Qed.

(** X12.  Failed reads leave no trace: the loop goes on to the next read,
    and the outcome is the one of the same reads without the failed ones. *)
Theorem recv_ignores_failed_reads :
  forall (s : Server) (c : option net.UDPConn) (reads : list ReadResult) (w : World),
    recv Pack Unpack s c reads w
    = recv Pack Unpack s c (filter isDatagram reads) w.
Proof.
  intros s c reads w. destruct c; [ | reflexivity ].
  cbn [recv]. apply recv_loop_skips_errors.
Qed.

(** X13.  A datagram that does not decode, and one that decodes to a query
    [handleQuery] rejects, does not stop the loop: it leaves log lines
    only (two for a malformed packet, one for a rejected query), and the
    reads that follow are handled as if it had not arrived, but for the
    log. *)
Theorem recv_goes_on_after_bad_packet :
  forall (s : Server) (c : net.UDPConn) (payload : list Z) (from : net.UDPAddr)
         (reads : list ReadResult) (w : World),
    shutdown s = false ->
    (forall err,
        Unpack (firstn (Z.to_nat 65536) payload) = Fail err ->
        recv Pack Unpack s (Some c) (Datagram payload from :: reads) w
        = recv Pack Unpack s (Some c) reads
            (log [LogPrintf "[ERR] mdns: Failed to unpack packet";
                  LogPrintf "[ERR] mdns: Failed to handle query"] w))
    /\ (forall query,
          Unpack (firstn (Z.to_nat 65536) payload) = Ok query ->
          dns.Opcode (dns.Hdr query) <> 0
          \/ dns.Rcode (dns.Hdr query) <> 0
          \/ dns.Truncated (dns.Hdr query) = true ->
          recv Pack Unpack s (Some c) (Datagram payload from :: reads) w
          = recv Pack Unpack s (Some c) reads
              (log [LogPrintf "[ERR] mdns: Failed to handle query"] w)).
Proof.
  intros s c payload from reads w Hsd. split.
  - intros err HU. cbn [recv recv_loop]. rewrite Hsd.
    unfold bind at 1. unfold parsePacket. rewrite HU.
    unfold bind, ret. rewrite !emit_log, log_log. reflexivity.
  - intros query HU Hbad. cbn [recv recv_loop]. rewrite Hsd.
    unfold bind at 1. unfold parsePacket. rewrite HU.
    destruct (handleQuery_invalid Pack s query from w Hbad) as [e He].
    rewrite He. unfold bind. rewrite emit_log. reflexivity.
Qed.

(** ** More of [server.go]: shutting down *)

Lemma conn_eqb_refl (c : net.UDPConn) : net.conn_eqb c c = true.
Proof. unfold net.conn_eqb. apply Z.eqb_refl. Qed.

(** The world after the first [Shutdown]: the sockets of the server are
    added to the closed connections, the clock and the kernel are as they
    were. *)
Lemma Shutdown_world (s : Server) (w : World) :
  shutdown s = false ->
  shutdownCh s = ChanOpen ->
  closed (snd (Shutdown s w)) = rev (present s) ++ closed w
  /\ now (snd (Shutdown s w)) = now w
  /\ refused (snd (Shutdown s w)) = refused w.
Proof.
  intros Hsd Hch. unfold Shutdown, present. rewrite Hsd, Hch.
  unfold bind, ret. rewrite emit_log.
  destruct (ipv4List s) as [c4 | ]; destruct (ipv6List s) as [c6 | ];
    cbn; auto.
Qed.

Lemma existsb_reversed {A : Type} (f : A -> bool) (l : list A) :
  existsb f (rev l) = existsb f l.
Proof.
  induction l as [ | a l IH]; [ reflexivity | ].
  cbn [rev existsb]. rewrite existsb_app, IH. cbn [existsb].
  rewrite orb_false_r. apply orb_comm.
Qed.

Lemma isClosed_app (c : net.UDPConn) (l : list net.UDPConn) (w : World) :
  existsb (net.conn_eqb c) (rev l ++ closed w)
  = isClosed c w || existsb (net.conn_eqb c) l.
Proof.
  unfold isClosed. rewrite existsb_app, existsb_reversed. apply orb_comm.
Qed.

(** X14.  [Shutdown] closes the sockets of the server and no other
    connection: a connection is closed after the call if it was closed
    before, or if the server was not shut down yet and it is one of the
    server's sockets. *)
Theorem Shutdown_closes_exactly_its_sockets :
  forall (s : Server) (w : World) (c : net.UDPConn),
    server_inv s ->
    isClosed c (snd (Shutdown s w))
    = isClosed c w
      || (negb (shutdown s) && existsb (net.conn_eqb c) (present s)).
Proof.
  intros s w c Hinv. destruct (shutdown s) eqn:Hsd.
  - rewrite (Shutdown_when_down s w Hsd). cbn [snd negb andb].
    now rewrite orb_false_r.
  - destruct (Shutdown_world s w Hsd (Hinv Hsd)) as (Hc & _ & _).
    unfold isClosed at 1. rewrite Hc. cbn [negb andb]. apply isClosed_app.
Qed.

Lemma announcements_app (a b : list Event) :
  announcements (a ++ b) = (announcements a + announcements b)%nat.
Proof. unfold announcements. now rewrite filter_app, length_app. Qed.

(** One call of [announceOnce]: the Zone is asked once, then come writes
    on sockets of the server, at most one for each. *)
Lemma announceOnce_shape (s : Server) (w : World) :
  exists evs : list Event,
    announceOnce Pack s w
    = (fst (announceOnce Pack s w), log (ZoneAnnouncement :: evs) w)
    /\ announcements evs = 0%nat
    /\ (List.length (writes evs) <= List.length (present s))%nat
    /\ Forall (writeOf s w) (writes evs).
Proof.
  destruct (Announcement (Config_Zone (config s))) as [ | r recs] eqn:Hr.
  - rewrite (announceOnce_nothing Pack s w Hr). exists []. cbn.
    repeat split; auto. lia.
  - assert (Hne : Announcement (Config_Zone (config s)) <> []) by congruence.
    destruct (Pack (announceMsg (Announcement (Config_Zone (config s)))))
      as [buf | err] eqn:HP.
    2: { rewrite (announceOnce_unpackable Pack s w err Hne HP). exists []. cbn.
         repeat split; auto. lia. }
    rewrite (announceOnce_eq Pack s w buf Hne HP).
    unfold writeOf, writable, present.
    destruct (ipv4List s) as [c4 | ]; destruct (ipv6List s) as [c6 | ];
      try destruct (isClosed c4 w || refused w c4 ipv4Addr) eqn:Hd4;
      (eexists; split; [ reflexivity | ]);
      (split; [ reflexivity | ]);
      (split; [ cbn; lia | ]);
      cbn [writes flat_map app];
      repeat (apply Forall_cons;
              [ split; cbn [fst snd];
                [ cbn; auto | rewrite ?Hd4; reflexivity ] | ]);
      apply Forall_nil.
Qed.

(** One run of [tryAnnounce]. *)
Lemma tryAnnounce_shape (s : Server) (a : Announcing) (w : World) :
  exists (evs : list Event) (a' : Announcing),
    tryAnnounce Pack s a w = (a', log evs w)
    /\ announcements evs = 1%nat
    /\ (List.length (writes evs) <= List.length (present s))%nat
    /\ Forall (writeOf s w) (writes evs)
    /\ spawned a' = spawned a
    /\ match fst (announceOnce Pack s w) with
       | None => a' = a
       | Some _ =>
           timer a' = match tstate (timer a) with
                      | TimerPending => mkTimer (when (timer a)) TimerStopped
                      | _ => timer a
                      end
       end.
Proof.
  destruct (announceOnce_shape s w) as (evs & Heq & Hann & Hlen & Hw).
  unfold tryAnnounce, bind. rewrite Heq.
  destruct (fst (announceOnce Pack s w)) as [e | ].
  - unfold timer_Stop, bind, ret. rewrite !emit_log, !log_log.
    eexists. eexists. split; [ reflexivity | ].
    rewrite !announcements_app, !writes_app. cbn [app].
    change (announcements (ZoneAnnouncement :: evs)) with (S (announcements evs)).
    change (writes (ZoneAnnouncement :: evs)) with (writes evs).
    rewrite Hann. cbn. rewrite !app_nil_r.
    repeat split; auto.
  - eexists. eexists. split; [ reflexivity | ].
    change (announcements (ZoneAnnouncement :: evs)) with (S (announcements evs)).
    change (writes (ZoneAnnouncement :: evs)) with (writes evs).
    rewrite Hann. repeat split; auto.
Qed.

Lemma writeOf_same_sockets (s : Server) (w w' : World)
    (l : list (net.UDPConn * list Z * net.UDPAddr * bool)) :
  closed w' = closed w -> refused w' = refused w ->
  Forall (writeOf s w') l -> Forall (writeOf s w) l.
Proof.
  intros Hc Hr. apply Forall_impl. intros x [Hin Hok]. split; [ exact Hin | ].
  rewrite Hok. unfold writable, isClosed. now rewrite Hc, Hr.
Qed.

(** Any run of the timer and the goroutine of a call of [Announce], from
    any state: what it adds to the trace and how far it gets. *)
Lemma run_shape (s : Server) (acts : list Action) :
  forall (a a' : Announcing) (w w' : World),
    run Pack s acts (a, w) = Some (a', w') ->
    exists evs : list Event,
      events w' = events w ++ evs
      /\ closed w' = closed w /\ refused w' = refused w
      /\ (announcements evs + rounds a = rounds a')%nat
      /\ (List.length (writes evs) <= announcements evs * List.length (present s))%nat
      /\ Forall (writeOf s w) (writes evs).
Proof.
  induction acts as [ | act acts IH]; intros a a' w w' Hrun.
  - cbn [run] in Hrun. inversion Hrun; subst. exists [].
    rewrite app_nil_r. cbn. repeat split; auto.
  - cbn [run] in Hrun.
    destruct (step Pack s act (a, w)) as [[a1 w1] | ] eqn:Hstep; [ | discriminate ].
    destruct (IH _ _ _ _ Hrun) as (evs2 & Hev2 & Hc2 & Hr2 & Hn2 & Hl2 & Hw2).
    clear IH Hrun.
    assert (Hone : exists evs1 : list Event,
               events w1 = events w ++ evs1
               /\ closed w1 = closed w /\ refused w1 = refused w
               /\ (announcements evs1 + rounds a = rounds a1)%nat
               /\ (List.length (writes evs1)
                   <= announcements evs1 * List.length (present s))%nat
               /\ Forall (writeOf s w) (writes evs1)).
    { destruct act; cbn [step] in Hstep.
      - destruct (0 <=? d); inversion Hstep; subst. exists [].
        rewrite app_nil_r. cbn. repeat split; auto.
      - destruct (spawned a) eqn:Hsp; [ | discriminate ].
        destruct (tryAnnounce_shape s (mkAnnouncing (timer a) false) w)
          as (evs1 & a1' & Heq & Hann & Hlen & Hw & Hsp' & Ht).
        rewrite Heq in Hstep. inversion Hstep; subst a1' w1. clear Hstep.
        exists evs1. rewrite events_log, Hann.
        split; [ reflexivity | ]. split; [ reflexivity | ].
        split; [ reflexivity | ].
        split; [ | split; [ lia | exact Hw ] ].
        unfold rounds. rewrite Hsp' , Hsp. cbn [spawned timer].
        destruct (fst (announceOnce Pack s w)).
        + rewrite Ht. cbn [timer].
          destruct (tstate (timer a)) eqn:Hts; cbn [tstate]; rewrite ?Hts; reflexivity.
        + subst a1. reflexivity.
      - destruct (tstate (timer a)) eqn:Hts; try discriminate.
        destruct (when (timer a) <=? now w); [ | discriminate ].
        destruct (tryAnnounce_shape s
                    (mkAnnouncing (mkTimer (when (timer a)) TimerFired) (spawned a)) w)
          as (evs1 & a1' & Heq & Hann & Hlen & Hw & Hsp' & Ht).
        rewrite Heq in Hstep. inversion Hstep; subst a1' w1. clear Hstep.
        exists evs1. rewrite events_log, Hann.
        split; [ reflexivity | ]. split; [ reflexivity | ].
        split; [ reflexivity | ].
        split; [ | split; [ lia | exact Hw ] ].
        unfold rounds. rewrite Hsp', Hts. cbn [spawned timer tstate].
        destruct (fst (announceOnce Pack s w)).
        + rewrite Ht. cbn [timer tstate]. destruct (spawned a); reflexivity.
        + subst a1. cbn [timer tstate]. destruct (spawned a); reflexivity. }
    destruct Hone as (evs1 & Hev1 & Hc1 & Hr1 & Hn1 & Hl1 & Hw1).
    exists (evs1 ++ evs2).
    rewrite Hev2, Hev1, <- app_assoc, announcements_app, writes_app, length_app.
    split; [ reflexivity | ].
    split; [ congruence | ]. split; [ congruence | ].
    split; [ lia | ]. split; [ nia | ].
    apply Forall_app. split; [ exact Hw1 | ].
    exact (writeOf_same_sockets s w w1 _ Hc1 Hr1 Hw2).
Qed.

Lemma writable_closed (w : World) (c : net.UDPConn) (addr : net.UDPAddr) :
  isClosed c w = true -> writable w (Some c) addr = false.
Proof. intro H. unfold writable. now rewrite H. Qed.

Lemma connFor_present (s : Server) (from : net.UDPAddr) (c : net.UDPConn) :
  connFor s from = Some c -> In c (present s).
Proof.
  unfold connFor, present.
  destruct (net.To4 (net.addrIP from)); intro H; rewrite H.
  - now left.
  - apply in_or_app. right. now left.
Qed.

(** With the sockets closed a send writes nothing that goes through, and
    it fails. *)
Lemma sendEvents_sockets_closed (s : Server) (w : World) (m : dns.Msg)
    (from : net.UDPAddr) (u : bool) :
  socketsClosed s w ->
  Forall failedWrite (writes (sendEvents Pack s w m from u))
  /\ fst (sendResponse Pack s m from u w) <> None.
Proof.
  intro Hclosed.
  destruct (sendEvents_facts s w m from u) as (_ & _ & ->).
  rewrite sendResponse_result. unfold writeEvents.
  destruct (Pack m) as [buf | e]; [ | split; [ constructor | discriminate ] ].
  destruct (connFor s from) as [c | ] eqn:Hc;
    [ | split; [ constructor | discriminate ] ].
  pose proof (writable_closed w c (destFor from u)
                (Hclosed c (connFor_present s from c Hc))) as Hwr.
  rewrite Hwr. split; [ repeat constructor | ].
  destruct (conn_WriteToUDP_result c buf (destFor from u) w) as [[Hiff _] _].
  intro Hnone. rewrite (Hiff Hnone) in Hwr. discriminate Hwr.
Qed.

Lemma handleQuery_sockets_closed (s : Server) (query : dns.Msg)
    (from : net.UDPAddr) (w : World) :
  socketsClosed s w ->
  exists evs : list Event,
    snd (handleQuery Pack s query from w) = log evs w
    /\ Forall failedWrite (writes evs)
    /\ (sends evs <> [] -> fst (handleQuery Pack s query from w) <> None).
Proof.
  intro Hclosed.
  destruct (query_valid_dec query) as [(Hop & Hrc & Htc) | Hbad].
  2: { destruct (handleQuery_invalid Pack s query from w Hbad) as [e He].
       rewrite He. exists []. rewrite log_nil. cbn.
       split; [ reflexivity | ]. split; [ constructor | discriminate ]. }
  rewrite (handleQuery_trace s query from w Hop Hrc Htc). cbn [fst snd].
  eexists. split; [ reflexivity | ].
  rewrite sends_app, sends_ZoneRecords, writes_app, writes_ZoneRecords.
  cbn [app].
  destruct (sendEvents_sockets_closed s w (multicastResponse s query) from false Hclosed)
    as [Hfm Hrm].
  destruct (sendEvents_sockets_closed s w (unicastResponse s query) from true Hclosed)
    as [Hfu Hru].
  unfold multicastFailure.
  destruct (responseEvents_cases s w query from)
    as [(Hm & Hu & ->) | [(Hm & Hu & ->) | [(Hm & -> & _) | (Hm & Hu & -> & Hok)]]].
  - split; [ constructor | intro H; now contradiction H ].
  - split; [ exact Hfu | ]. intros _. rewrite Hm.
    destruct (unicastAnswers _ _); [ congruence | ].
    destruct (fst (sendResponse Pack s (unicastResponse s query) from true w));
      [ discriminate | congruence ].
  - split; [ exact Hfm | ]. intros _.
    destruct (multicastAnswers _ _); [ congruence | ].
    destruct (fst (sendResponse Pack s (multicastResponse s query) from false w));
      [ discriminate | congruence ].
  - congruence.
Qed.

Lemma Shutdown_sockets_closed (s : Server) (w : World) :
  server_inv s ->
  shutdown s = false ->
  socketsClosed (snd (fst (Shutdown s w))) (snd (Shutdown s w)).
Proof.
  intros Hinv Hsd.
  destruct (Shutdown_first s w Hsd (Hinv Hsd)) as [Hfst _].
  destruct (Shutdown_world s w Hsd (Hinv Hsd)) as (Hc & _ & _).
  rewrite Hfst. cbn [snd]. intros c Hin.
  change (present (mkServer (config s) (ipv4List s) (ipv6List s) true ChanClosed))
    with (present s) in Hin.
  unfold isClosed. rewrite Hc, isClosed_app.
  apply orb_true_iff. right. apply existsb_exists.
  exists c. split; [ exact Hin | apply conn_eqb_refl ].
Qed.

(** X15.  After [Shutdown] no response leaves the server: whatever query
    [handleQuery] is given then, every write it makes fails, and if it has
    a response to send it returns an error. *)
Theorem after_Shutdown_no_response_leaves :
  forall (s : Server) (w : World) (query : dns.Msg) (from : net.UDPAddr),
    server_inv s ->
    shutdown s = false ->
    let s1 := snd (fst (Shutdown s w)) in
    let w1 := snd (Shutdown s w) in
    exists evs : list Event,
      snd (handleQuery Pack s1 query from w1) = log evs w1
      /\ Forall failedWrite (writes evs)
      /\ (sends evs <> [] -> fst (handleQuery Pack s1 query from w1) <> None).
Proof.
  intros s w query from Hinv Hsd s1 w1.
  apply handleQuery_sockets_closed. now apply Shutdown_sockets_closed.
Qed.

(** X16.  After [Shutdown] no announcement leaves the server either: the
    timer of an earlier [Announce] is not cancelled by [Shutdown], but in
    any run of the goroutine and the timer that follows every write
    fails. *)
Theorem after_Shutdown_no_announcement_leaves :
  forall (s : Server) (w : World) (acts : list Action) (a a' : Announcing)
         (w' : World),
    server_inv s ->
    shutdown s = false ->
    let s1 := snd (fst (Shutdown s w)) in
    let w1 := snd (Shutdown s w) in
    run Pack s1 acts (a, w1) = Some (a', w') ->
    exists evs : list Event,
      events w' = events w1 ++ evs
      /\ Forall failedWrite (writes evs).
Proof.
  intros s w acts a a' w' Hinv Hsd s1 w1 Hrun.
  destruct (run_shape s1 acts a a' w1 w' Hrun) as (evs & Hev & _ & _ & _ & _ & Hw).
  exists evs. split; [ exact Hev | ].
  pose proof (Shutdown_sockets_closed s w Hinv Hsd) as Hclosed.
  fold s1 w1 in Hclosed.
  revert Hw. apply Forall_impl. intros x [Hin Hok].
  unfold failedWrite. rewrite Hok. apply writable_closed. now apply Hclosed.
Qed.

(** ** More of [server.go]: announcing *)




Lemma run_after_stop (s : Server) (acts : list Action) :
  forall (a a' : Announcing) (w w' : World),
    spawned a = false ->
    tstate (timer a) = TimerStopped ->
    run Pack s acts (a, w) = Some (a', w') ->
    a' = a /\ trace w' = trace w.
Proof.
  induction acts as [ | act acts IH]; intros a a' w w' Hsp Hts Hrun;
    cbn [run] in Hrun.
  - inversion Hrun. auto.
  - destruct act; cbn [step] in Hrun; rewrite ?Hsp, ?Hts in Hrun;
      try discriminate.
    destruct (0 <=? d); [ | discriminate ].
    destruct (IH _ _ _ _ Hsp Hts Hrun) as [Ha Htr]. auto.
Qed.

(** X18.  If the announcement made at once fails, there is no second one:
    when the goroutine runs first and its [announceOnce] fails, the timer
    is stopped, and however long the run goes on the Zone has been asked
    for its announcement once and nothing more is added to the trace. *)
Theorem Announce_failure_cancels_second_round :
  forall (s : Server) (w : World) (acts : list Action) (a' : Announcing)
         (w' : World),
    fst (announceOnce Pack s w) <> None ->
    run Pack s (RunGoroutine :: acts) (Announce s w) = Some (a', w') ->
    tstate (timer a') = TimerStopped
    /\ exists evs : list Event,
         events w' = events w ++ evs
         /\ snd (tryAnnounce Pack s
                   (mkAnnouncing (mkTimer (now w + time.Second * 2) TimerPending) false)
                   w) = log evs w
         /\ announcements evs = 1%nat.
Proof.
  intros s w acts a' w' Hfail Hrun.
  unfold Announce in Hrun. cbn [run step spawned timer] in Hrun.
  destruct (tryAnnounce_shape s
              (mkAnnouncing (mkTimer (now w + time.Second * 2) TimerPending) false) w)
    as (evs & a1 & Heq & Hann & _ & _ & Hsp & Ht).
  rewrite Heq in Hrun |- *. cbn [snd].
  destruct (fst (announceOnce Pack s w)) as [e | ]; [ | now contradiction Hfail ].
  cbn [timer tstate when spawned] in Ht, Hsp.
  destruct (run_after_stop s acts a1 a' (log evs w) w') as [Ha Htr];
    [ exact Hsp | now rewrite Ht | exact Hrun | ].
  subst a'. split; [ now rewrite Ht | ].
  exists evs. split; [ | split; [ reflexivity | exact Hann ] ].
  unfold events at 1. rewrite Htr. apply events_log.
Qed.

(** X19.  [announceOnce] returns nil in two cases only: the Zone has
    nothing to announce, or the announcement packs and the write to the
    multicast group goes through on every socket the server has. *)
Theorem announceOnce_nil_iff :
  forall (s : Server) (w : World),
    fst (announceOnce Pack s w) = None
    <-> Announcement (Config_Zone (config s)) = []
        \/ (exists buf : list Z,
               Pack (announceMsg (Announcement (Config_Zone (config s)))) = Ok buf
               /\ groupsWritable s w = true).
Proof.
  intros s w.
  destruct (Announcement (Config_Zone (config s))) as [ | r recs] eqn:Hr.
  - rewrite (announceOnce_nothing Pack s w Hr). cbn [fst]. split; auto.
  - assert (Hne : Announcement (Config_Zone (config s)) <> []) by congruence.
    destruct (Pack (announceMsg (Announcement (Config_Zone (config s)))))
      as [buf | err] eqn:HP.
    2: { rewrite (announceOnce_unpackable Pack s w err Hne HP). cbn [fst].
         rewrite Hr in HP. split; [ discriminate | ].
         intros [E | (buf & E & _)]; congruence. }
    rewrite (announceOnce_eq Pack s w buf Hne HP). rewrite Hr in HP.
    assert (Hbuf : forall X P : Prop,
               (X <-> P) ->
               (X <-> (r :: recs = []
                       \/ exists buf0,
                            Pack (announceMsg (r :: recs)) = Ok buf0 /\ P))).
    { intros X P HXP. rewrite HXP. split.
      - intro H. right. now exists buf.
      - intros [E | (b & _ & H)]; [ discriminate E | exact H ]. }
    unfold groupsWritable.
    destruct (ipv4List s) as [c4 | ]; destruct (ipv6List s) as [c6 | ];
      apply Hbuf; cbn [writable andb].
    + destruct (conn_WriteToUDP_result c4 buf ipv4Addr w) as [H4 _].
      destruct (conn_WriteToUDP_result c6 buf ipv6Addr w) as [H6 _].
      unfold writable in H4, H6 |- *.
      destruct (isClosed c4 w || refused w c4 ipv4Addr); cbn [negb andb fst].
      * exact H4.
      * exact H6.
    + destruct (conn_WriteToUDP_result c4 buf ipv4Addr w) as [H4 _].
      unfold writable in H4 |- *.
      destruct (isClosed c4 w || refused w c4 ipv4Addr); cbn [negb andb fst].
      * exact H4.
      * split; reflexivity.
    + destruct (conn_WriteToUDP_result c6 buf ipv6Addr w) as [H6 _].
      unfold writable in H6 |- *. cbn [fst]. exact H6.
    + cbn [fst]. split; reflexivity.
Qed.

(** X20.  [NewServer] fails exactly when setting the loopback option
    fails on one of the two sockets (the IPv4 error comes first) or
    neither multicast group could be joined.  When it succeeds the server
    holds the configuration and the two connections as they were given,
    is not shut down, has an open channel, and an announcement is under
    way: a goroutine to run and a timer due in 2 seconds.  In no case does
    [NewServer] itself write a datagram or ask the Zone. *)
Theorem NewServer_outcome :
  forall (cfg : Config) (listen4 listen6 : option net.UDPConn)
         (loopback4 loopback6 : option error) (w : World),
    snd (NewServer cfg listen4 listen6 loopback4 loopback6 w) = w
    /\ match fst (NewServer cfg listen4 listen6 loopback4 loopback6 w) with
       | Ok (s, a) =>
           loopback4 = None /\ loopback6 = None
           /\ (listen4 <> None \/ listen6 <> None)
           /\ s = mkServer cfg listen4 listen6 false ChanOpen
           /\ a = mkAnnouncing (mkTimer (now w + time.Second * 2) TimerPending) true
       | Fail err =>
           loopback4 = Some err
           \/ (loopback4 = None /\ loopback6 = Some err)
           \/ (loopback4 = None /\ loopback6 = None
               /\ listen4 = None /\ listen6 = None /\ err = ErrNoListeners)
       end.
Proof.
  intros cfg listen4 listen6 loopback4 loopback6 w. unfold NewServer.
  destruct loopback4 as [e4 | ]; [ cbn; auto | ].
  destruct loopback6 as [e6 | ]; [ cbn; auto | ].
  destruct listen4 as [c4 | ]; destruct listen6 as [c6 | ]; cbn;
    repeat split; auto; try (left; discriminate); try (right; discriminate).
  right. right. auto 10.
Qed.

End Coverage.

(** ** The further theorems at work on the sample data *)

(** A burst of three reads on the IPv4 socket: a malformed packet, a
    failed read and a query with the unicast bit.  The malformed packet is
    logged twice, the query is answered to its sender. *)
Example recv_burst :
  events (snd (recv exPack exUnpack exServer (Some exConn4)
                 [Datagram [1; 2; 3] exFrom;
                  ReadError (ErrExternal "timeout");
                  Datagram [7; 32769] exFrom] exWorld))
  = [LogPrintf "[ERR] mdns: Failed to unpack packet";
     LogPrintf "[ERR] mdns: Failed to handle query";
     ZoneRecords (exQuestion 32769);
     SendResponse (responseMsg 7 [exRR]) exFrom true;
     WriteToUDP exConn4 [7; 1] exFrom true].
Proof. vm_compute. reflexivity. Qed.

Lemma handleQuery_asks_every_question_witness :
  asked (events (snd (handleQuery exPack exServer
                        (exQuery [exQuestion 1; exQuestion 32769]) exFrom exWorld)))
  = [exQuestion 1; exQuestion 32769].
Proof.
  destruct (handleQuery_asks_every_question_first exPack exServer
              (exQuery [exQuestion 1; exQuestion 32769]) exFrom exWorld
              eq_refl eq_refl eq_refl)
    as (evs & _ & _ & H).
  exact H.
Defined.



Lemma parsePacket_drops_malformed_witness :
  fst (parsePacket exPack exUnpack exServer [1; 2; 3] exFrom exWorld)
  = Some (ErrExternal "malformed packet").
Proof.
  exact (proj1 (parsePacket_drops_malformed_packet exPack exUnpack exServer
                  [1; 2; 3] exFrom exWorld (ErrExternal "malformed packet")
                  eq_refl)).
Defined.

Lemma recv_inert_witness :
  recv exPack exUnpack exServer None [Datagram [7; 1] exFrom] exWorld
  = (tt, exWorld).
Proof.
  exact (recv_inert_without_socket_or_after_shutdown exPack exUnpack exServer
           None [Datagram [7; 1] exFrom] exWorld (or_introl eq_refl)).
Defined.

Lemma recv_goes_on_witness :
  recv exPack exUnpack exServer (Some exConn4)
    [Datagram [1; 2; 3] exFrom; Datagram [7; 1] exFrom] exWorld
  = recv exPack exUnpack exServer (Some exConn4) [Datagram [7; 1] exFrom]
      (log [LogPrintf "[ERR] mdns: Failed to unpack packet";
            LogPrintf "[ERR] mdns: Failed to handle query"] exWorld).
Proof.
  exact (proj1 (recv_goes_on_after_bad_packet exPack exUnpack exServer exConn4
                  [1; 2; 3] exFrom [Datagram [7; 1] exFrom] exWorld eq_refl)
           (ErrExternal "malformed packet") eq_refl).
Defined.

Lemma Shutdown_closes_witness :
  isClosed exConn4 (snd (Shutdown exServer exWorld)) = true
  /\ isClosed (net.mkUDPConn 9) (snd (Shutdown exServer exWorld)) = false.
Proof.
  split.
  - exact (Shutdown_closes_exactly_its_sockets exServer exWorld exConn4
             (fun _ => eq_refl)).
  - exact (Shutdown_closes_exactly_its_sockets exServer exWorld (net.mkUDPConn 9)
             (fun _ => eq_refl)).
Defined.

Lemma after_Shutdown_no_response_witness :
  exists evs : list Event,
    snd (handleQuery exPack (snd (fst (Shutdown exServer exWorld)))
           (exQuery [exQuestion 1]) exFrom (snd (Shutdown exServer exWorld)))
    = log evs (snd (Shutdown exServer exWorld))
    /\ Forall failedWrite (writes evs)
    /\ (sends evs <> [] ->
        fst (handleQuery exPack (snd (fst (Shutdown exServer exWorld)))
               (exQuery [exQuestion 1]) exFrom (snd (Shutdown exServer exWorld)))
        <> None).
Proof.
  exact (after_Shutdown_no_response_leaves exPack exServer exWorld
           (exQuery [exQuestion 1]) exFrom (fun _ => eq_refl) eq_refl).
Defined.

Lemma after_Shutdown_no_announcement_witness :
  exists (a' : Announcing) (w' : World),
    run exPack (snd (fst (Shutdown exServer exWorld))) [FireTimer]
      (mkAnnouncing (mkTimer 0 TimerPending) false, snd (Shutdown exServer exWorld))
    = Some (a', w')
    /\ exists evs : list Event,
         events w' = events (snd (Shutdown exServer exWorld)) ++ evs
         /\ Forall failedWrite (writes evs).
Proof.
  eexists. eexists. split.
  - reflexivity.
  - exact (after_Shutdown_no_announcement_leaves exPack exServer exWorld
             [FireTimer] (mkAnnouncing (mkTimer 0 TimerPending) false) _ _
             (fun _ => eq_refl) eq_refl eq_refl).
Defined.


Lemma Announce_failure_cancels_witness :
  exists (a' : Announcing) (w' : World),
    run exPack exServer4 [RunGoroutine; Elapse (time.Second * 3)]
      (Announce exServer4 exWorldDown4) = Some (a', w')
    /\ tstate (timer a') = TimerStopped.
Proof.
  eexists. eexists. split.
  - reflexivity.
  - refine (proj1 (Announce_failure_cancels_second_round exPack exServer4
                     exWorldDown4 [Elapse (time.Second * 3)] _ _ _ eq_refl)).
    simpl. discriminate.
Defined.
